(** * NYC transit / weather ETL pipeline: orchestrator and dashboard loader

    A shallow embedding of [main_pipeline.py] (class [ETLPipeline], [main]),
    of [load_data] from [app.py] and of [validate_date_format] and
    [get_date_range] from [utils.py], together with the parts of the Python
    runtime they lean on ([datetime], [round], a column-oriented data frame),
    followed by the properties established about them.

    Layout: all definitions come first (sections 1 to 9), the theorems
    after them (section 10 onwards). *)

From Stdlib Require Import ZArith QArith Qcanon Lia String Ascii List.
From stdpp Require Import base option list gmap strings pretty.

Set Warnings "-register-all".

Local Open Scope string_scope.
Local Open Scope Z_scope.

(* ===================================================================== *)
(** ** 1. Python's [datetime], as far as the pipeline uses it            *)
(* ===================================================================== *)

(** A naive [datetime] is a point of the proleptic Gregorian time line.  It
    is kept as the number of microseconds elapsed since
    0001-01-01T00:00:00, which is what CPython's [datetime] arithmetic
    works on (ordinal day, second of the day, microsecond). *)
Module PyDatetime.

Definition datetime : Type := Z.

Definition US_PER_SECOND : Z := 1000000.
Definition US_PER_DAY : Z := 86400 * US_PER_SECOND.

(** [timedelta(days=n)] in microseconds. *)
Definition timedelta_days (n : Z) : Z := n * US_PER_DAY.

(** [d.toordinal()]: 0001-01-01 is day 1. *)
Definition toordinal (t : datetime) : Z := t / US_PER_DAY + 1.

Definition is_leap (y : Z) : bool :=
  (y mod 4 =? 0) && (negb (y mod 100 =? 0) || (y mod 400 =? 0)).

(** [_DAYS_IN_MONTH] and [_DAYS_BEFORE_MONTH] of CPython's [_pydatetime]. *)
Definition DAYS_IN_MONTH (m : Z) : Z :=
  match m with
  | 1 => 31 | 2 => 28 | 3 => 31 | 4 => 30 | 5 => 31 | 6 => 30
  | 7 => 31 | 8 => 31 | 9 => 30 | 10 => 31 | 11 => 30 | 12 => 31
  | _ => -1
  end.

Definition DAYS_BEFORE_MONTH (m : Z) : Z :=
  match m with
  | 1 => 0 | 2 => 31 | 3 => 59 | 4 => 90 | 5 => 120 | 6 => 151
  | 7 => 181 | 8 => 212 | 9 => 243 | 10 => 273 | 11 => 304 | 12 => 334
  | _ => -1
  end.

Definition DI400Y : Z := 146097.
Definition DI100Y : Z := 36524.
Definition DI4Y : Z := 1461.

Definition b2z (b : bool) : Z := if b then 1 else 0.

Definition days_before_year (y : Z) : Z :=
  let y1 := y - 1 in y1 * 365 + y1 / 4 - y1 / 100 + y1 / 400.

Definition days_before_month (y m : Z) : Z :=
  DAYS_BEFORE_MONTH m + b2z ((2 <? m) && is_leap y).

(** [_ymd2ord]: year, month, day to ordinal. *)
Definition ymd2ord (y m d : Z) : Z :=
  days_before_year y + days_before_month y m + d.

(** [_ord2ymd]: ordinal to (year, month, day), the algorithm of CPython. *)
Definition ord2ymd (n0 : Z) : Z * Z * Z :=
  let n := n0 - 1 in
  let n400 := n / DI400Y in
  let n := n mod DI400Y in
  let year := n400 * 400 + 1 in
  let n100 := n / DI100Y in
  let n := n mod DI100Y in
  let n4 := n / DI4Y in
  let n := n mod DI4Y in
  let n1 := n / 365 in
  let n := n mod 365 in
  let year := year + n100 * 100 + n4 * 4 + n1 in
  if (n1 =? 4) || (n100 =? 4) then (year - 1, 12, 31)
  else
    let leapyear := (n1 =? 3) && (negb (n4 =? 24) || (n100 =? 3)) in
    let month := Z.shiftr (n + 50) 5 in
    let preceding := DAYS_BEFORE_MONTH month + b2z ((2 <? month) && leapyear) in
    if n <? preceding then
      let month' := month - 1 in
      let preceding' :=
        preceding - (DAYS_IN_MONTH month' + b2z ((month' =? 2) && leapyear)) in
      (year, month', n - preceding' + 1)
    else (year, month, n - preceding + 1).

Definition year (t : datetime) : Z := fst (fst (ord2ymd (toordinal t))).
Definition month (t : datetime) : Z := snd (fst (ord2ymd (toordinal t))).
Definition day (t : datetime) : Z := snd (ord2ymd (toordinal t)).
Definition hour (t : datetime) : Z := (t mod US_PER_DAY) / (3600 * US_PER_SECOND).
Definition minute (t : datetime) : Z := ((t mod US_PER_DAY) / (60 * US_PER_SECOND)) mod 60.
Definition second (t : datetime) : Z := ((t mod US_PER_DAY) / US_PER_SECOND) mod 60.
Definition microsecond (t : datetime) : Z := t mod US_PER_SECOND.

(** [weekday()]: Monday is 0. *)
Definition weekday (t : datetime) : Z := (toordinal t + 6) mod 7.

(** The [datetime(y, m, d, H, M, S)] constructor. *)
Definition mk_datetime (y m d hh mm ss us : Z) : datetime :=
  (ymd2ord y m d - 1) * US_PER_DAY + ((hh * 60 + mm) * 60 + ss) * US_PER_SECOND + us.

(** Fixed-width decimal fields of [strftime]. *)
Definition digit (n : Z) : ascii := ascii_of_N (48 + Z.to_N (n mod 10)).

Fixpoint zero_pad (width : nat) (n : Z) (acc : string) : string :=
  match width with
  | O => acc
  | S w => zero_pad w (n / 10) (String (digit n) acc)
  end.

Definition fmt2 (n : Z) : string := zero_pad 2 n EmptyString.
Definition fmt4 (n : Z) : string := zero_pad 4 n EmptyString.
Definition fmt6 (n : Z) : string := zero_pad 6 n EmptyString.

(** [t.strftime("%Y-%m-%d")]. *)
Definition strftime_ymd (t : datetime) : string :=
  fmt4 (year t) +:+ "-" +:+ fmt2 (month t) +:+ "-" +:+ fmt2 (day t).

(** [t.strftime("%Y%m%d_%H%M%S")]. *)
Definition strftime_stamp (t : datetime) : string :=
  fmt4 (year t) +:+ fmt2 (month t) +:+ fmt2 (day t) +:+ "_" +:+
  fmt2 (hour t) +:+ fmt2 (minute t) +:+ fmt2 (second t).

(** [t.isoformat()]: the fraction is printed only when it is not zero. *)
Definition isoformat (t : datetime) : string :=
  strftime_ymd t +:+ "T" +:+
  fmt2 (hour t) +:+ ":" +:+ fmt2 (minute t) +:+ ":" +:+ fmt2 (second t) +:+
  (if microsecond t =? 0 then EmptyString else "." +:+ fmt6 (microsecond t)).

(** [strftime("%B")] and pandas' [day_name()], in the C / English locale. *)
Definition month_name_of (m : Z) : string :=
  match m with
  | 1 => "January" | 2 => "February" | 3 => "March" | 4 => "April"
  | 5 => "May" | 6 => "June" | 7 => "July" | 8 => "August"
  | 9 => "September" | 10 => "October" | 11 => "November" | _ => "December"
  end.

Definition day_name_of (wd : Z) : string :=
  match wd with
  | 0 => "Monday" | 1 => "Tuesday" | 2 => "Wednesday" | 3 => "Thursday"
  | 4 => "Friday" | 5 => "Saturday" | _ => "Sunday"
  end.

Definition month_name (t : datetime) : string := month_name_of (month t).
Definition day_name (t : datetime) : string := day_name_of (weekday t).

(** [str(t.to_period("M"))], "YYYY-MM". *)
Definition year_month (t : datetime) : string :=
  fmt4 (year t) +:+ "-" +:+ fmt2 (month t).

(** [(t2 - t1).total_seconds()], an exact rational here. *)
Definition total_seconds (t2 t1 : datetime) : Qc := Q2Qc (Qmake (t2 - t1) 1000000).

End PyDatetime.

(* ===================================================================== *)
(** ** 2. Numbers: [round(x, 2)] and the printed forms                   *)
(* ===================================================================== *)

(** Python floats are modelled by exact rationals.  [round(x, 2)] rounds to
    the nearest multiple of 1/100, ties going to the even neighbour. *)
Module PyNum.

Definition round_half_even (q : Q) : Z :=
  let n := Qnum q in
  let d := Zpos (Qden q) in
  let fl := n / d in
  match 2 * (n mod d) ?= d with
  | Lt => fl
  | Gt => fl + 1
  | Eq => if Z.even fl then fl else fl + 1
  end.

Definition round2 (x : Qc) : Qc :=
  Q2Qc (Qmake (round_half_even (Qmult (this x) (Qmake 100 1))) 100).

Definition Qc_of_Z (z : Z) : Qc := Q2Qc (inject_Z z).
Definition Qc_of_nat (n : nat) : Qc := Qc_of_Z (Z.of_nat n).

(** [f"{n:,}"] for a non-negative integer: groups of three digits. *)
Fixpoint group_thousands (fuel : nat) (n : Z) : string :=
  match fuel with
  | O => pretty n
  | S f =>
      if n <? 1000 then pretty n
      else group_thousands f (n / 1000) +:+ "," +:+
           PyDatetime.zero_pad 3 (n mod 1000) EmptyString
  end.

Definition format_thousands (n : Z) : string :=
  if n <? 0 then "-" +:+ group_thousands (Z.to_nat (Z.log2 (- n))) (- n)
  else group_thousands (Z.to_nat (Z.log2 n)) n.

(** [str(x)] of a float that is a multiple of 1/100 (every value the
    pipeline prints went through [round(_, 2)]): integer part, a point, and
    one or two decimals. *)
Definition repr_hundredths (x : Qc) : string :=
  let h := round_half_even (Qmult (this x) (Qmake 100 1)) in
  let a := Z.abs h in
  (if h <? 0 then "-" else EmptyString) +:+ pretty (a / 100) +:+ "." +:+
  (if a mod 10 =? 0 then String (PyDatetime.digit (a / 10)) EmptyString
   else PyDatetime.zero_pad 2 (a mod 100) EmptyString).

End PyNum.

(* ===================================================================== *)
(** ** 3. Data frames and JSON-like values                               *)
(* ===================================================================== *)

(** A pandas [DataFrame] is kept column by column, in column order: the
    pipeline only measures it ([empty], [len], [size], [isnull]) and the
    dashboard loader assigns whole columns. *)
Module Frame.

Inductive cell : Type :=
| NaN                                (* missing number, [None] *)
| NaT                                (* missing timestamp *)
| CInt (z : Z)
| CFloat (q : Qc)
| CStr (s : string)
| CDate (t : PyDatetime.datetime).

Definition isnull (c : cell) : bool :=
  match c with
  | NaN | NaT => true
  | _ => false
  end.

Definition DataFrame : Type := list (string * list cell).

(** [len(df)]: the length of the index. *)
Definition df_len (df : DataFrame) : nat :=
  match df with
  | [] => O
  | (_, c) :: _ => length c
  end.

(** [len(df.columns)]. *)
Definition df_ncols (df : DataFrame) : nat := length df.

(** [df.empty]: some axis has length 0. *)
Definition df_empty (df : DataFrame) : bool :=
  Nat.eqb (df_ncols df) 0 || Nat.eqb (df_len df) 0.

(** [df.size]: rows times columns. *)
Definition df_size (df : DataFrame) : nat := (df_len df * df_ncols df)%nat.

Definition count_null (c : list cell) : nat := length (List.filter isnull c).

(** [df.isnull().sum().sum()]. *)
Definition df_null_count (df : DataFrame) : nat :=
  foldr (fun kc acc => (count_null (snd kc) + acc)%nat) O df.

(** [df[name]]. *)
Fixpoint df_get (name : string) (df : DataFrame) : option (list cell) :=
  match df with
  | [] => None
  | (k, c) :: rest => if String.eqb k name then Some c else df_get name rest
  end.

(** [df[name] = col]: replaces the column in place, or appends it. *)
Fixpoint df_set (name : string) (col : list cell) (df : DataFrame) : DataFrame :=
  match df with
  | [] => [(name, col)]
  | (k, c) :: rest =>
      if String.eqb k name then (k, col) :: rest
      else (k, c) :: df_set name col rest
  end.

(** [df.head()]. *)
Definition df_head (df : DataFrame) : DataFrame :=
  List.map (fun kc => (fst kc, take 5 (snd kc))) df.

(** A column can go through the [.dt] accessor when it is datetime-like. *)
Definition is_datetimelike (c : cell) : bool :=
  match c with
  | CDate _ | NaT => true
  | _ => false
  end.

Definition dt_year (c : cell) : cell :=
  match c with CDate t => CInt (PyDatetime.year t) | _ => NaN end.
Definition dt_month (c : cell) : cell :=
  match c with CDate t => CInt (PyDatetime.month t) | _ => NaN end.
Definition dt_month_name (c : cell) : cell :=
  match c with CDate t => CStr (PyDatetime.month_name t) | _ => NaN end.
Definition dt_day_name (c : cell) : cell :=
  match c with CDate t => CStr (PyDatetime.day_name t) | _ => NaN end.
Definition dt_year_month (c : cell) : cell :=
  match c with CDate t => CStr (PyDatetime.year_month t) | _ => CStr "NaT" end.

End Frame.

(** What [json.dump] can serialise: the contents of [pipeline_metrics]. *)
Inductive value : Type :=
| VNone
| VBool (b : bool)
| VInt (z : Z)
| VNum (q : Qc)
| VStr (s : string)
| VList (l : list value)
| VDict (kvs : list (string * value)).

(** Lookup in a nested dictionary literal. *)
Fixpoint dict_get (k : string) (kvs : list (string * value)) : option value :=
  match kvs with
  | [] => None
  | (k', v) :: rest => if String.eqb k' k then Some v else dict_get k rest
  end.

(* ===================================================================== *)
(** ** 4. Effects: exceptions, the clock, files, the log                 *)
(* ===================================================================== *)

(** A call either returns or raises; an exception is kept as its
    [str(e)]. *)
Inductive result (A : Type) : Type :=
| Ok (a : A)
| Raise (msg : string).
Arguments Ok {A} a.
Arguments Raise {A} msg.

Inductive log_level : Type := INFO | WARNING | ERROR.

(** Everything a run does that is visible from outside, in order. *)
Inductive event : Type :=
| Log (lvl : log_level) (msg : string)
| CallFetchRidership (start_date end_date : string) (max_records : option Z)
| CallFetchWeather (start_date end_date : string)
| CallTransformAndMerge
| CallSaveToCsv (filename : string)
| CallCreateSummaryStats
| CallUploadToS3 (path key : string)
| CallLoadToPostgres (table_name : string)
| CallGetLoadMetrics
| WriteJson (path : string)
| ReadParquet (path : string)
| WriteParquet (path : string)
| Makedirs (path : string)
| StInfo (msg : string)
| Print (line : string)
| PrintFrame (df : Frame.DataFrame).

(** The three collaborators, by the calls the code makes on them.  Their
    sources are not part of this development: they are arbitrary functions
    that return or raise. *)
Record DataExtractor : Type := {
  fetch_ridership_data : string -> string -> option Z -> result Frame.DataFrame;
  fetch_weather_data : string -> string -> result Frame.DataFrame
}.

(** The transformer carries its quality report; [transform_and_merge]
    returns or raises and leaves the instance with a new report. *)
Record DataTransformer : Type := {
  initial_quality_report : value;
  transform_and_merge :
    value -> Frame.DataFrame -> Frame.DataFrame -> result Frame.DataFrame * value
}.

Record DataLoader : Type := {
  save_to_csv : Frame.DataFrame -> string -> result string;
  create_summary_stats : Frame.DataFrame -> result Frame.DataFrame;
  upload_to_s3 : string -> string -> result unit;
  load_to_postgres : Frame.DataFrame -> string -> result bool;
  get_load_metrics : value
}.

(** The outside world of one run: the readings of [datetime.now()], in the
    order they are taken, and the collaborators. *)
Record Env : Type := {
  now_reading : nat -> PyDatetime.datetime;
  extractor : DataExtractor;
  transformer : DataTransformer;
  loader : DataLoader
}.

(** The mutable state: how often the clock was read, the JSON files under
    [data/processed], the parquet files, the trace, and the two mutable
    attributes of an [ETLPipeline] instance. *)
Record State : Type := {
  ticks : nat;
  json_files : gmap string (gmap string value);
  parquet_files : gmap string Frame.DataFrame;
  trace : list event;
  pipeline_metrics : gmap string value;
  quality_report : value
}.

Definition M (A : Type) : Type := Env -> State -> result A * State.

Definition ret {A} (a : A) : M A := fun _ s => (Ok a, s).

Definition bind {A B} (m : M A) (k : A -> M B) : M B :=
  fun env s =>
    match m env s with
    | (Ok a, s') => k a env s'
    | (Raise e, s') => (Raise e, s')
    end.

Notation "'let*' x := m 'in' k" := (bind m (fun x => k))
  (at level 10, x name, m at level 100, k at level 200).
Notation "m >> k" := (bind m (fun _ => k))
  (at level 100, k at level 200, right associativity).

(** [raise ValueError(msg)]. *)
Definition raise {A} (msg : string) : M A := fun _ s => (Raise msg, s).

(** [try: body except Exception as e: handler(e)]; the handler runs in the
    state the body left behind. *)
Definition try_except {A} (body : M A) (handler : string -> M A) : M A :=
  fun env s =>
    match body env s with
    | (Ok a, s') => (Ok a, s')
    | (Raise e, s') => handler e env s'
    end.

Definition emit (e : event) : M unit :=
  fun _ s =>
    (Ok tt, {| ticks := ticks s; json_files := json_files s;
               parquet_files := parquet_files s; trace := trace s ++ [e];
               pipeline_metrics := pipeline_metrics s;
               quality_report := quality_report s |}).

(** [datetime.now()]: the next reading of the clock. *)
Definition datetime_now : M PyDatetime.datetime :=
  fun env s =>
    (Ok (now_reading env (ticks s)),
     {| ticks := S (ticks s); json_files := json_files s;
        parquet_files := parquet_files s; trace := trace s;
        pipeline_metrics := pipeline_metrics s;
        quality_report := quality_report s |}).

Definition logger_info (msg : string) : M unit := emit (Log INFO msg).
Definition logger_warning (msg : string) : M unit := emit (Log WARNING msg).
Definition logger_error (msg : string) : M unit := emit (Log ERROR msg).

(** [self.pipeline_metrics[k] = v]. *)
Definition set_metric (k : string) (v : value) : M unit :=
  fun _ s =>
    (Ok tt, {| ticks := ticks s; json_files := json_files s;
               parquet_files := parquet_files s; trace := trace s;
               pipeline_metrics := <[k := v]> (pipeline_metrics s);
               quality_report := quality_report s |}).

Definition get_metrics : M (gmap string value) :=
  fun _ s => (Ok (pipeline_metrics s), s).

(** [json.dump(self.pipeline_metrics, open(path, 'w'))]: the file at [path]
    is created or truncated and receives the dictionary as it is now. *)
Definition json_dump_metrics (path : string) : M unit :=
  fun _ s =>
    (Ok tt, {| ticks := ticks s;
               json_files := <[path := pipeline_metrics s]> (json_files s);
               parquet_files := parquet_files s;
               trace := trace s ++ [WriteJson path];
               pipeline_metrics := pipeline_metrics s;
               quality_report := quality_report s |}).

(** A call on a collaborator: it is recorded, then returns or raises. *)
Definition call {A} (e : event) (f : Env -> result A) : M A :=
  fun env s =>
    (f env, {| ticks := ticks s; json_files := json_files s;
               parquet_files := parquet_files s; trace := trace s ++ [e];
               pipeline_metrics := pipeline_metrics s;
               quality_report := quality_report s |}).

(** [self.transformer.transform_and_merge(r, w)] on the instance's
    transformer: the report attached to it is replaced. *)
Definition self_transform_and_merge (r w : Frame.DataFrame) : M Frame.DataFrame :=
  fun env s =>
    match transform_and_merge (transformer env) (quality_report s) r w with
    | (out, report) =>
        (out,
         {| ticks := ticks s; json_files := json_files s;
            parquet_files := parquet_files s;
            trace := trace s ++ [CallTransformAndMerge];
            pipeline_metrics := pipeline_metrics s;
            quality_report := report |})
    end.

(** [self.transformer.get_quality_report()]. *)
Definition self_get_quality_report : M value :=
  fun _ s => (Ok (quality_report s), s).

(* ===================================================================== *)
(** ** 5. [ETLPipeline]                                                  *)
(* ===================================================================== *)

Module ETLPipeline.
Import PyDatetime PyNum Frame.

Fixpoint str_repeat (c : ascii) (n : nat) : string :=
  match n with
  | O => EmptyString
  | S n' => String c (str_repeat c n')
  end.

(** ["=" * 70]. *)
Definition banner : string := str_repeat "="%char 70.

Definition py_bool (b : bool) : string := if b then "True" else "False".

(** What [run] returns: a dictionary with the keys [status], [metrics] and
    either [data] or [error]. *)
Record run_result : Type := {
  r_status : string;
  r_data : option DataFrame;
  r_error : option string;
  r_metrics : gmap string value
}.

(** [__init__]: the metrics dictionary of a new instance. *)
Definition initial_metrics : gmap string value :=
  <["errors" := VList []]>
  (<["records_processed" := VInt 0]>
  (<["status" := VStr "NOT_STARTED"]>
  (<["end_time" := VNone]>
  (<["start_time" := VNone]> ∅)))).

(** [ETLPipeline()]: fresh collaborators and metrics in the current world. *)
Definition init : M unit :=
  fun env s =>
    (Ok tt, {| ticks := ticks s; json_files := json_files s;
               parquet_files := parquet_files s; trace := trace s;
               pipeline_metrics := initial_metrics;
               quality_report := initial_quality_report (transformer env) |}).

(** [os.path.basename] of a path. *)
Fixpoint basename_aux (s acc : string) : string :=
  match s with
  | EmptyString => acc
  | String c rest =>
      if Ascii.eqb c "/"%char then basename_aux rest EmptyString
      else basename_aux rest (acc +:+ String c EmptyString)
  end.
Definition basename (p : string) : string := basename_aux p EmptyString.

(** [_save_pipeline_metrics]. *)
Definition _save_pipeline_metrics : M unit :=
  emit (Makedirs "data/processed") >>
  let* now := datetime_now in
  let timestamp := strftime_stamp now in
  let filepath := "data/processed/pipeline_metrics_" +:+ timestamp +:+ ".json" in
  json_dump_metrics filepath >>
  logger_info ("Pipeline metrics saved to " +:+ filepath).

(** The quality score of phase 4. *)
Definition quality_score_of (merged_df : DataFrame) : Qc :=
  let null_count := df_null_count merged_df in
  let total_cells := df_size merged_df in
  if (0 <? total_cells)%nat
  then (1 - Qc_of_nat null_count / Qc_of_nat total_cells) * Qc_of_Z 100
  else 0.

(** The success rate of phase 4. *)
Definition success_rate_of (merged_df ridership_df weather_df : DataFrame) : Qc :=
  (Qc_of_nat (df_len merged_df) /
   Qc_of_nat (Nat.max (df_len ridership_df) (df_len weather_df))) * Qc_of_Z 100.

(** The body of the [try] block of [run]. *)
Definition run_phases (extraction_time : Qc) (start_date end_date : string)
    (save_to_db : bool) : M run_result :=
  (* PHASE 1: EXTRACTION *)
  let* extraction_start := datetime_now in
  logger_info "Extracting ridership data..." >>
  let* ridership_df :=
    call (CallFetchRidership start_date end_date None)
         (fun env => fetch_ridership_data (extractor env) start_date end_date None) in
  if df_empty ridership_df then raise "No ridership data extracted" else
  logger_info (" Ridership: " +:+ pretty (df_len ridership_df) +:+ " records") >>
  logger_info "Extracting weather data..." >>
  let* weather_df :=
    call (CallFetchWeather start_date end_date)
         (fun env => fetch_weather_data (extractor env) start_date end_date) in
  if df_empty weather_df then raise "No weather data extracted" else
  logger_info (" Weather: " +:+ pretty (df_len weather_df) +:+ " records") >>
  (* PHASE 2: TRANSFORMATION *)
  let* transformation_start := datetime_now in
  let* merged_df := self_transform_and_merge ridership_df weather_df in
  if df_empty merged_df then raise "Transformation resulted in empty dataset" else
  let* t := datetime_now in
  let transformation_time := total_seconds t transformation_start in
  let* report := self_get_quality_report in
  set_metric "transformation"
    (VDict [("output_records", VInt (Z.of_nat (df_len merged_df)));
            ("output_columns", VInt (Z.of_nat (df_ncols merged_df)));
            ("duration_seconds", VNum (round2 transformation_time));
            ("quality_metrics", report)]) >>
  (* PHASE 3: LOADING *)
  let* loading_start := datetime_now in
  let* t := datetime_now in
  let timestamp := strftime_stamp t in
  let* csv_path :=
    call (CallSaveToCsv ("transit_weather_" +:+ timestamp +:+ ".csv"))
         (fun env => save_to_csv (loader env) merged_df
                       ("transit_weather_" +:+ timestamp +:+ ".csv")) in
  let* summary_df :=
    call CallCreateSummaryStats
         (fun env => create_summary_stats (loader env) merged_df) in
  let* summary_path :=
    call (CallSaveToCsv ("summary_stats_" +:+ timestamp +:+ ".csv"))
         (fun env => save_to_csv (loader env) summary_df
                       ("summary_stats_" +:+ timestamp +:+ ".csv")) in
  try_except
    (call (CallUploadToS3 csv_path ("transit_weather/" +:+ basename csv_path))
          (fun env => upload_to_s3 (loader env) csv_path
                        ("transit_weather/" +:+ basename csv_path)) >>
     call (CallUploadToS3 summary_path ("transit_weather/" +:+ basename summary_path))
          (fun env => upload_to_s3 (loader env) summary_path
                        ("transit_weather/" +:+ basename summary_path)))
    (fun e => logger_warning ("S3 upload failed: " +:+ e)) >>
  let* db_success :=
    (if save_to_db
     then call (CallLoadToPostgres "transit_weather_analytics")
               (fun env => load_to_postgres (loader env) merged_df
                             "transit_weather_analytics")
     else ret false) in
  let* t := datetime_now in
  let loading_time := total_seconds t loading_start in
  let* load_metrics :=
    call CallGetLoadMetrics (fun env => Ok (get_load_metrics (loader env))) in
  set_metric "loading"
    (VDict [("csv_path", VStr csv_path);
            ("summary_path", VStr summary_path);
            ("database_success", VBool db_success);
            ("duration_seconds", VNum (round2 loading_time));
            ("load_metrics", load_metrics)]) >>
  (* PHASE 4: METRICS *)
  let total_time := (extraction_time + transformation_time + loading_time)%Qc in
  let quality_score := quality_score_of merged_df in
  let success_rate := success_rate_of merged_df ridership_df weather_df in
  let* t := datetime_now in
  set_metric "end_time" (VStr (isoformat t)) >>
  set_metric "status" (VStr "SUCCESS") >>
  set_metric "records_processed" (VInt (Z.of_nat (df_len merged_df))) >>
  set_metric "total_duration_seconds" (VNum (round2 total_time)) >>
  set_metric "quality_score" (VNum (round2 quality_score)) >>
  set_metric "success_rate" (VNum (round2 success_rate)) >>
  _save_pipeline_metrics >>
  logger_info "PIPELINE COMPLETED SUCCESSFULLY!" >>
  let* metrics := get_metrics in
  ret {| r_status := "SUCCESS"; r_data := Some merged_df;
         r_error := None; r_metrics := metrics |}.

(** The [except Exception as e] block of [run]. *)
Definition run_failed (e : string) : M run_result :=
  logger_error ("PIPELINE FAILED: " +:+ e) >>
  logger_error "Exception details:" >>
  let* t1 := datetime_now in
  let* t2 := datetime_now in
  set_metric "end_time" (VStr (isoformat t1)) >>
  set_metric "status" (VStr "FAILED") >>
  set_metric "errors"
    (VList [VDict [("error", VStr e); ("timestamp", VStr (isoformat t2))]]) >>
  _save_pipeline_metrics >>
  let* metrics := get_metrics in
  ret {| r_status := "FAILED"; r_data := None;
         r_error := Some e; r_metrics := metrics |}.

(** [ETLPipeline.run]. *)
Definition run (start_date end_date : option string) (save_to_db : bool)
  : M run_result :=
  (* the timers start at 0; those of the transformation and of the loading
     are assigned again in the [try] block before they are read *)
  let extraction_time : Qc := 0%Qc in
  let* t := datetime_now in
  set_metric "start_time" (VStr (isoformat t)) >>
  set_metric "status" (VStr "RUNNING") >>
  logger_info banner >>
  logger_info " STARTING NYC TRANSIT WEATHER ANALYTICS PIPELINE" >>
  logger_info banner >>
  let* end_date :=
    (match end_date with
     | None => let* t := datetime_now in ret (strftime_ymd t)
     | Some d => ret d
     end) in
  let* start_date :=
    (match start_date with
     | None => let* t := datetime_now in ret (strftime_ymd (t - timedelta_days 365))
     | Some d => ret d
     end) in
  logger_info (" Date Range: " +:+ start_date +:+ " to " +:+ end_date) >>
  logger_info (" Save to Database: " +:+ py_bool save_to_db) >>
  try_except (run_phases extraction_time start_date end_date save_to_db) run_failed.

(** The parsed command line. *)
Record Args : Type := {
  arg_start_date : option string;
  arg_end_date : option string;
  arg_no_db : bool
}.

Definition newline : string := String (ascii_of_nat 10) EmptyString.

Definition metric_int (m : gmap string value) (k : string) : string :=
  match m !! k with
  | Some (VInt z) => format_thousands z
  | _ => EmptyString
  end.

Definition metric_num (m : gmap string value) (k : string) : string :=
  match m !! k with
  | Some (VNum q) => repr_hundredths q
  | Some (VInt z) => pretty z
  | _ => EmptyString
  end.

(** [main], from the parsed arguments on; it returns the exit code handed
    to [sys.exit]. *)
Definition main (args : Args) : M Z :=
  emit (Makedirs "logs") >>
  init >>
  let* result := run (arg_start_date args) (arg_end_date args) (negb (arg_no_db args)) in
  if String.eqb (r_status result) "SUCCESS" then
    emit (Print (newline +:+ "PIPELINE EXECUTION SUMMARY")) >>
    emit (Print ("Status: " +:+ r_status result)) >>
    emit (Print ("Records Processed: " +:+
                 metric_int (r_metrics result) "records_processed")) >>
    emit (Print ("Total Time: " +:+
                 metric_num (r_metrics result) "total_duration_seconds" +:+ " seconds")) >>
    emit (Print ("Quality Score: " +:+
                 metric_num (r_metrics result) "quality_score" +:+ "%")) >>
    (match r_data result with
     | Some data =>
         if negb (df_empty data) then
           emit (Print (newline +:+ "Sample Output (first 5 rows):")) >>
           emit (PrintFrame (df_head data))
         else ret tt
     | None => ret tt
     end) >>
    ret 0
  else
    emit (Print (newline +:+ "PIPELINE FAILED")) >>
    emit (Print ("Error: " +:+ default "Unknown error" (r_error result))) >>
    ret 1.

(** The exit status of the process: the code given to [sys.exit], or 1 when
    an exception escapes [main]. *)
Definition exit_code (out : result Z) : Z :=
  match out with
  | Ok c => c
  | Raise _ => 1
  end.

End ETLPipeline.

(* ===================================================================== *)
(** ** 6. [load_data] of the dashboard                                   *)
(* ===================================================================== *)

Module App.
Import PyDatetime Frame.

Definition CACHE_FILE : string := "merged_data.parquet".

(** [DataTransformer()]: the transformer in use is a new instance. *)
Definition new_transformer : M unit :=
  fun env s =>
    (Ok tt, {| ticks := ticks s; json_files := json_files s;
               parquet_files := parquet_files s; trace := trace s;
               pipeline_metrics := pipeline_metrics s;
               quality_report := initial_quality_report (transformer env) |}).

(** [os.path.exists(p)]. *)
Definition path_exists (p : string) : M bool :=
  fun _ s => (Ok (bool_decide (is_Some (parquet_files s !! p))), s).

(** [pd.read_parquet(p)]. *)
Definition read_parquet (p : string) : M DataFrame :=
  fun _ s =>
    match parquet_files s !! p with
    | Some df =>
        (Ok df, {| ticks := ticks s; json_files := json_files s;
                   parquet_files := parquet_files s;
                   trace := trace s ++ [ReadParquet p];
                   pipeline_metrics := pipeline_metrics s;
                   quality_report := quality_report s |})
    | None => (Raise ("No such file or directory: " +:+ p), s)
    end.

(** [df.to_parquet(p, index=False)]. *)
Definition to_parquet (df : DataFrame) (p : string) : M unit :=
  fun _ s =>
    (Ok tt, {| ticks := ticks s; json_files := json_files s;
               parquet_files := <[p := df]> (parquet_files s);
               trace := trace s ++ [WriteParquet p];
               pipeline_metrics := pipeline_metrics s;
               quality_report := quality_report s |}).

(** [merged_df["date"].dt]: a [KeyError] without the column, an
    [AttributeError] when it does not hold timestamps. *)
Definition date_dt (df : DataFrame) : M (list cell) :=
  match df_get "date" df with
  | None => raise "'date'"
  | Some col =>
      if forallb is_datetimelike col then ret col
      else raise "Can only use .dt accessor with datetimelike values"
  end.

(** [load_data]; the messages of [st.info] are quoted without their leading
    pictograph, and the memoisation of [st.cache_data] is left out: this is
    one evaluation of the body. *)
Definition load_data : M (DataFrame * value) :=
  (* extractor = DataExtractor(); transformer = DataTransformer() *)
  new_transformer >>
  let* cached := path_exists CACHE_FILE in
  let* loaded :=
    (if cached then
       emit (StInfo "Loading cached merged data...") >>
       let* merged_df := read_parquet CACHE_FILE in
       let* quality_report := self_get_quality_report in
       ret (merged_df, quality_report)
     else
       emit (StInfo "Fetching new data...") >>
       let start_date := "2023-01-01" in
       let end_date := "2024-12-31" in
       let max_records := 600000 in
       let* ridership_df :=
         call (CallFetchRidership start_date end_date (Some max_records))
              (fun env => fetch_ridership_data (extractor env)
                            start_date end_date (Some max_records)) in
       let* weather_df :=
         call (CallFetchWeather start_date end_date)
              (fun env => fetch_weather_data (extractor env) start_date end_date) in
       let* merged_df := self_transform_and_merge ridership_df weather_df in
       to_parquet merged_df CACHE_FILE >>
       let* quality_report := self_get_quality_report in
       ret (merged_df, quality_report)) in
  let merged_df := fst loaded in
  let quality_report := snd loaded in
  (* Precompute filter-friendly columns *)
  let* d := date_dt merged_df in
  let merged_df := df_set "year" (List.map dt_year d) merged_df in
  let* d := date_dt merged_df in
  let merged_df := df_set "month" (List.map dt_month d) merged_df in
  let* d := date_dt merged_df in
  let merged_df := df_set "month_name" (List.map dt_month_name d) merged_df in
  let* d := date_dt merged_df in
  let merged_df := df_set "day_name" (List.map dt_day_name d) merged_df in
  let* d := date_dt merged_df in
  let merged_df := df_set "year_month" (List.map dt_year_month d) merged_df in
  ret (merged_df, quality_report).

(** The five calendar columns of a frame, recomputed from its dates. *)
Definition with_calendar_columns (dates : list cell) (df : DataFrame) : DataFrame :=
  df_set "year_month" (List.map dt_year_month dates)
    (df_set "day_name" (List.map dt_day_name dates)
      (df_set "month_name" (List.map dt_month_name dates)
        (df_set "month" (List.map dt_month dates)
          (df_set "year" (List.map dt_year dates) df)))).

End App.

(* ===================================================================== *)
(** ** 7. The transformer, after its specification                       *)
(* ===================================================================== *)

(** [data_transformation.py] is not among the sources at hand; the
    definitions of this module follow the written specification of
    [transform_and_merge] (typed records, tables as ordered sequences). *)
Module SpecTransformer.

(** Modelled from the spec: the missing [data_transformation.py] input row
    "RidershipRecord: date, ridership (nullable)".  A date is an ordinal
    day; [None] stands for a value that does not parse as a date. *)
Record RidershipRecord : Type := {
  r_date : option Z;
  r_ridership : option Z
}.

(** Modelled from the spec: the missing [data_transformation.py] input row
    "WeatherRecord: date, temperature_mean (nullable), precipitation
    (nullable)". *)
Record WeatherRecord : Type := {
  w_date : option Z;
  w_temperature_mean : option Qc;
  w_precipitation : option Qc
}.

(** Modelled from the spec: the missing [data_transformation.py] output row
    "MergedRecord: date, ridership, temperature_mean, precipitation, derived
    calendar fields year, month, month_name, day_name, year_month". *)
Record MergedRecord : Type := {
  date : Z;
  ridership : option Z;
  temperature_mean : option Qc;
  precipitation : option Qc;
  year : Z;
  month : Z;
  month_name : string;
  day_name : string;
  year_month : string
}.

(** Modelled from the spec: the missing [data_transformation.py] cleaning
    step "invalid/unparsable dates dropped", for ridership rows. *)
Definition valid_ridership (rows : list RidershipRecord) : list (Z * option Z) :=
  omap (fun r => match r_date r with
                 | Some d => Some (d, r_ridership r)
                 | None => None
                 end) rows.

(** Modelled from the spec: the missing [data_transformation.py] cleaning
    step "invalid/unparsable dates dropped", for weather rows. *)
Definition valid_weather (rows : list WeatherRecord)
  : list (Z * (option Qc * option Qc)) :=
  omap (fun w => match w_date w with
                 | Some d => Some (d, (w_temperature_mean w, w_precipitation w))
                 | None => None
                 end) rows.

(** Modelled from the spec: the missing [data_transformation.py] cleaning
    step "drop exact-duplicate dates, keeping the first occurrence". *)
Fixpoint drop_duplicates {A : Type} (seen : gset Z) (rows : list (Z * A))
  : list (Z * A) :=
  match rows with
  | [] => []
  | x :: rest =>
      if decide (fst x ∈ seen) then drop_duplicates seen rest
      else x :: drop_duplicates ({[fst x]} ∪ seen) rest
  end.

(** Modelled from the spec: the missing [data_transformation.py] alignment
    "weather left-joined onto ridership dates": the weather of a date. *)
Fixpoint find_weather (d : Z) (ws : list (Z * (option Qc * option Qc)))
  : option (option Qc * option Qc) :=
  match ws with
  | [] => None
  | w :: rest => if decide (fst w = d) then Some (snd w) else find_weather d rest
  end.

(** Modelled from the spec: the missing [data_transformation.py] step
    "derived fields computed purely from the date", with the calendar of
    section 1. *)
Definition merge_row (ws : list (Z * (option Qc * option Qc))) (r : Z * option Z)
  : MergedRecord :=
  let d := fst r in
  let w := find_weather d ws in
  let ymd := PyDatetime.ord2ymd d in
  {| date := d;
     ridership := snd r;
     temperature_mean := w ≫= fst;
     precipitation := w ≫= snd;
     year := fst (fst ymd);
     month := snd (fst ymd);
     month_name := PyDatetime.month_name_of (snd (fst ymd));
     day_name := PyDatetime.day_name_of ((d + 6) mod 7);
     year_month := PyDatetime.fmt4 (fst (fst ymd)) +:+ "-" +:+
                   PyDatetime.fmt2 (snd (fst ymd)) |}.

Definition count_none {A B : Type} (f : A -> option B) (l : list A) : nat :=
  length (List.filter (fun x => negb (bool_decide (is_Some (f x)))) l).

(** Modelled from the spec: the missing [data_transformation.py] quality
    report, "a mapping from dataset name to a mapping of metric name to
    value": row counts, null counts per column, duplicates removed. *)
Definition quality_of (ridership_rows : list RidershipRecord)
    (weather_rows : list WeatherRecord) (merged : list MergedRecord)
  : gmap string (gmap string nat) :=
  let vr := valid_ridership ridership_rows in
  let vw := valid_weather weather_rows in
  let cr := drop_duplicates ∅ vr in
  let cw := drop_duplicates ∅ vw in
  <["ridership" :=
      <["rows" := length ridership_rows]>
      (<["invalid_dates" := (length ridership_rows - length vr)%nat]>
      (<["duplicates_removed" := (length vr - length cr)%nat]>
      (<["null_ridership" := count_none snd cr]> ∅)))]>
  (<["weather" :=
      <["rows" := length weather_rows]>
      (<["invalid_dates" := (length weather_rows - length vw)%nat]>
      (<["duplicates_removed" := (length vw - length cw)%nat]>
      (<["null_temperature_mean" := count_none (fun w => fst (snd w)) cw]>
      (<["null_precipitation" := count_none (fun w => snd (snd w)) cw]> ∅))))]>
  (<["merged" :=
      <["rows" := length merged]>
      (<["null_ridership" := count_none ridership merged]>
      (<["null_temperature_mean" := count_none temperature_mean merged]>
      (<["null_precipitation" := count_none precipitation merged]> ∅)))]> ∅)).

(** Modelled from the spec: the missing [data_transformation.py] function
    [transform_and_merge]: per-source cleaning, then the weather
    left-joined onto the ridership dates, then the derived fields; the
    quality report is returned alongside the merged table. *)
Definition transform_and_merge (ridership_rows : list RidershipRecord)
    (weather_rows : list WeatherRecord)
  : list MergedRecord * gmap string (gmap string nat) :=
  let cr := drop_duplicates ∅ (valid_ridership ridership_rows) in
  let cw := drop_duplicates ∅ (valid_weather weather_rows) in
  let merged := List.map (merge_row cw) cr in
  (merged, quality_of ridership_rows weather_rows merged).

(** The ridership dates of an input, and the weather dates. *)
Definition ridership_dates (rows : list RidershipRecord) : list Z :=
  omap r_date rows.
Definition weather_dates (rows : list WeatherRecord) : list Z :=
  omap w_date rows.

(** Scenario A of the specification. *)
Definition jan1 : Z := PyDatetime.ymd2ord 2024 1 1.
Definition jan2 : Z := PyDatetime.ymd2ord 2024 1 2.
Definition jan3 : Z := PyDatetime.ymd2ord 2024 1 3.

Definition scenario_ridership : list RidershipRecord :=
  [ {| r_date := Some jan1; r_ridership := Some 100 |};
    {| r_date := Some jan2; r_ridership := Some 200 |} ].

Definition scenario_weather : list WeatherRecord :=
  [ {| w_date := Some jan1; w_temperature_mean := Some (Q2Qc 5);
       w_precipitation := Some (Q2Qc 0) |};
    {| w_date := Some jan3; w_temperature_mean := Some (Q2Qc 7);
       w_precipitation := Some (Q2Qc 1) |} ].

End SpecTransformer.

(* ===================================================================== *)
(** ** 8. Vocabulary for stating properties of a run                     *)
(* ===================================================================== *)

Module RunPoints.
Import PyDatetime PyNum Frame.

(** The [k]-th clock reading taken after state [s]. *)
Definition reading (env : Env) (s : State) (k : nat) : datetime :=
  now_reading env (ticks s + k)%nat.

(** How many readings the defaults of the date range take. *)
Definition date_reads (sd ed : option string) : nat :=
  ((match ed with Some _ => 0 | None => 1 end) +
   (match sd with Some _ => 0 | None => 1 end))%nat.

(** The end and start dates a run started in [s] works with. *)
Definition resolved_end (env : Env) (s : State) (ed : option string) : string :=
  match ed with
  | Some d => d
  | None => strftime_ymd (reading env s 1)
  end.

Definition resolved_start (env : Env) (s : State) (sd ed : option string) : string :=
  match sd with
  | Some d => d
  | None =>
      strftime_ymd
        (reading env s (match ed with Some _ => 1 | None => 2 end)
         - timedelta_days 365)
  end.

(** ["%Y-%m-%d"] of an ordinal day. *)
Definition format_ordinal (n : Z) : string :=
  let ymd := ord2ymd n in
  fmt4 (fst (fst ymd)) +:+ "-" +:+ fmt2 (snd (fst ymd)) +:+ "-" +:+ fmt2 (snd ymd).

(** The path of the metrics file saved at time [t]. *)
Definition metrics_path (t : datetime) : string :=
  "data/processed/pipeline_metrics_" +:+ strftime_stamp t +:+ ".json".

(** The events added to the trace between two states. *)
Definition new_events (s s' : State) : list event :=
  drop (length (trace s)) (trace s').

(** Calls that belong to the transformation or to the loading phase. *)
Definition is_transform_or_load (e : event) : bool :=
  match e with
  | CallTransformAndMerge | CallSaveToCsv _ | CallCreateSummaryStats
  | CallUploadToS3 _ _ | CallLoadToPostgres _ | CallGetLoadMetrics => true
  | _ => false
  end.

(** The dates handed to the first ridership fetch of a trace. *)
Fixpoint fetch_dates (tr : list event) : option (string * string) :=
  match tr with
  | [] => None
  | CallFetchRidership sd ed _ :: _ => Some (sd, ed)
  | _ :: rest => fetch_dates rest
  end.



(** The state in which the [try] block of [run] starts: the start time is
    recorded, the status is RUNNING, the date range is resolved and
    announced. *)
Definition after_prologue (env : Env) (s : State) (sd ed : option string)
    (db : bool) : State :=
  {| ticks := S (ticks s + date_reads sd ed);
     json_files := json_files s;
     parquet_files := parquet_files s;
     trace := trace s ++
       [Log INFO ETLPipeline.banner;
        Log INFO " STARTING NYC TRANSIT WEATHER ANALYTICS PIPELINE";
        Log INFO ETLPipeline.banner;
        Log INFO (" Date Range: " +:+ resolved_start env s sd ed +:+ " to " +:+
                  resolved_end env s ed);
        Log INFO (" Save to Database: " +:+ ETLPipeline.py_bool db)];
     pipeline_metrics :=
       <["status" := VStr "RUNNING"]>
       (<["start_time" := VStr (isoformat (reading env s 0))]> (pipeline_metrics s));
     quality_report := quality_report s |}.

(** The two durations a [try] block started in [s] measures. *)
Definition transformation_seconds (env : Env) (s : State) : Qc :=
  total_seconds (reading env s 2) (reading env s 1).
Definition loading_seconds (env : Env) (s : State) : Qc :=
  total_seconds (reading env s 5) (reading env s 3).

(** The file names of a [try] block started in [s]. *)
Definition csv_file (env : Env) (s : State) : string :=
  "transit_weather_" +:+ strftime_stamp (reading env s 4) +:+ ".csv".
Definition summary_file (env : Env) (s : State) : string :=
  "summary_stats_" +:+ strftime_stamp (reading env s 4) +:+ ".csv".

(** The metrics dictionary at the end of a [try] block that started in [s]
    with extraction timer [x] and ran to its end: [rdf], [wdf], [mdf] are the
    extracted and the merged frames, [rep] the report left on the
    transformer, [csv] and [spath] the paths of the two files, [dbs] the
    answer of the database load. *)
Definition success_metrics (env : Env) (s : State) (x : Qc)
    (rdf wdf mdf : DataFrame) (rep : value) (csv spath : string) (dbs : bool)
  : gmap string value :=
  <["success_rate" := VNum (round2 (ETLPipeline.success_rate_of mdf rdf wdf))]>
  (<["quality_score" := VNum (round2 (ETLPipeline.quality_score_of mdf))]>
  (<["total_duration_seconds" :=
       VNum (round2 (x + transformation_seconds env s + loading_seconds env s)%Qc)]>
  (<["records_processed" := VInt (Z.of_nat (df_len mdf))]>
  (<["status" := VStr "SUCCESS"]>
  (<["end_time" := VStr (isoformat (reading env s 6))]>
  (<["loading" :=
       VDict [("csv_path", VStr csv);
              ("summary_path", VStr spath);
              ("database_success", VBool dbs);
              ("duration_seconds", VNum (round2 (loading_seconds env s)));
              ("load_metrics", get_load_metrics (loader env))]]>
  (<["transformation" :=
       VDict [("output_records", VInt (Z.of_nat (df_len mdf)));
              ("output_columns", VInt (Z.of_nat (df_ncols mdf)));
              ("duration_seconds", VNum (round2 (transformation_seconds env s)));
              ("quality_metrics", rep)]]>
  (pipeline_metrics s)))))))).

(** The field of a nested metrics entry. *)
Definition metric_field (m : gmap string value) (k f : string) : option value :=
  match m !! k with
  | Some (VDict kvs) => dict_get f kvs
  | _ => None
  end.

End RunPoints.

(* ===================================================================== *)
(** ** 9. Concrete worlds                                                *)
(* ===================================================================== *)

Module Scenarios.
Import PyDatetime PyNum Frame ETLPipeline.

(** A clock started on 2026-11-04 at noon that advances [step]
    microseconds per reading. *)
Definition noon : datetime := mk_datetime 2026 11 4 12 0 0 0.
Definition clock (step : Z) (i : nat) : datetime := noon + Z.of_nat i * step.

Definition d (y m dd : Z) : cell := CDate (mk_datetime y m dd 0 0 0 0).

Definition ridership_df : DataFrame :=
  [("date", [d 2024 1 1; d 2024 1 2; d 2024 1 3]);
   ("ridership", [CInt 100; CInt 200; CInt 300])].

Definition weather_df : DataFrame :=
  [("date", [d 2024 1 1; d 2024 1 2; d 2024 1 4; d 2024 1 5;
             d 2024 1 6; d 2024 1 7; d 2024 1 8]);
   ("temperature_mean",
    [CFloat (Q2Qc 5); CFloat (Q2Qc 6); CFloat (Q2Qc 7); CFloat (Q2Qc 8);
     CFloat (Q2Qc 9); CFloat (Q2Qc 10); CFloat (Q2Qc 11)]);
   ("precipitation",
    [CFloat (Q2Qc 0); CFloat (Q2Qc 0); CFloat (Q2Qc 1); CFloat (Q2Qc 0);
     CFloat (Q2Qc 0); CFloat (Q2Qc 2); CFloat (Q2Qc 0)])].

Definition merged_df : DataFrame :=
  [("date", [d 2024 1 1; d 2024 1 2; d 2024 1 3]);
   ("ridership", [CInt 100; CInt 200; CInt 300]);
   ("temperature_mean", [CFloat (Q2Qc 5); CFloat (Q2Qc 6); NaN]);
   ("precipitation", [CFloat (Q2Qc 0); CFloat (Q2Qc 0); NaN])].

Definition empty_df : DataFrame := [].

Definition report_after : value :=
  VDict [("merged", VDict [("rows", VInt 3); ("null_temperature_mean", VInt 1)])].

Definition a_transformer : DataTransformer :=
  {| initial_quality_report := VDict [];
     transform_and_merge := fun _ _ _ => (Ok merged_df, report_after) |}.

(** A loader whose bucket is not configured and whose database cannot be
    reached. *)
Definition offline_loader : DataLoader :=
  {| save_to_csv := fun _ name => Ok ("data/processed/" +:+ name);
     create_summary_stats := fun df => Ok df;
     upload_to_s3 := fun _ _ => Raise "S3 bucket not configured";
     load_to_postgres := fun _ _ => Ok false;
     get_load_metrics := VDict [("rows_loaded", VInt 0)] |}.

Definition env_of (step : Z) (r w : DataFrame) : Env :=
  {| now_reading := clock step;
     extractor := {| fetch_ridership_data := fun _ _ _ => Ok r;
                     fetch_weather_data := fun _ _ => Ok w |};
     transformer := a_transformer;
     loader := offline_loader |}.

(** Every call answers; 2.5 seconds pass between two clock readings. *)
Definition env_ok : Env := env_of 2500000 ridership_df weather_df.

(** Scenario B: the ridership source is empty; a millisecond per reading. *)
Definition env_no_ridership : Env := env_of 1000 empty_df weather_df.

(** The weather source is empty; a millisecond per reading. *)
Definition env_no_weather : Env := env_of 1000 ridership_df empty_df.

(** The state of a process that has just started. *)
Definition boot : State :=
  {| ticks := 0; json_files := ∅; parquet_files := ∅; trace := [];
     pipeline_metrics := ∅; quality_report := VNone |}.

(** The state after [ETLPipeline()] in a new process. *)
Definition fresh : State :=
  {| ticks := 0; json_files := ∅; parquet_files := ∅; trace := [];
     pipeline_metrics := initial_metrics; quality_report := VDict [] |}.

Definition no_args : Args :=
  {| arg_start_date := None; arg_end_date := None; arg_no_db := false |}.

(** A cache file whose calendar columns are stale. *)
Definition stale_cache : DataFrame :=
  [("date", [d 2024 1 1; d 2024 2 29; NaT]);
   ("ridership", [CInt 100; CInt 200; CInt 300]);
   ("year", [CInt 1999; CInt 1999; CInt 1999]);
   ("day_name", [CStr "Friday"; CStr "Friday"; CStr "Friday"])].

Definition with_cache : State :=
  {| ticks := 0; json_files := ∅;
     parquet_files := <[App.CACHE_FILE := stale_cache]> ∅; trace := [];
     pipeline_metrics := ∅; quality_report := VNone |}.

End Scenarios.

(* ===================================================================== *)
(** ** 9.1 [utils.py]: date validation and the default range             *)
(* ===================================================================== *)

(** [validate_date_format] and [get_date_range].  The first rests on
    [datetime.strptime(date_str, '%Y-%m-%d')], which CPython runs as the
    regular expression
    [(?P<Y>\d\d\d\d)-(?P<m>1[0-2]|0[1-9]|[1-9])-(?P<d>3[0-1]|[1-2]\d|0[1-9]|[1-9]| [1-9])]
    matched at the start of the string, followed by a check that nothing is
    left over and by the construction of the date.  Strings are sequences
    of ASCII characters here; digits outside ASCII are not modelled. *)
Module Utils.
Import PyDatetime.

Definition code (c : ascii) : Z := Z.of_N (N_of_ascii c).

(** The character class [[lo-hi]] of two digits, and [\d]. *)
Definition between (lo hi : Z) (c : ascii) : bool :=
  (48 + lo <=? code c) && (code c <=? 48 + hi).
Definition is_digit (c : ascii) : bool := between 0 9 c.
Definition digit_value (c : ascii) : Z := code c - 48.

(** An alternative made of two character classes, and one made of one:
    the number read and the rest of the string, when it matches. *)
Definition two_chars (p1 p2 : ascii -> bool) (s : string) : list (Z * string) :=
  match s with
  | String a (String b rest) =>
      if p1 a && p2 b then [(10 * digit_value a + digit_value b, rest)] else []
  | _ => []
  end.

Definition one_char (p : ascii -> bool) (s : string) : list (Z * string) :=
  match s with
  | String a rest => if p a then [(digit_value a, rest)] else []
  | _ => []
  end.

(** The alternative [ [1-9]]: a blank, then a digit ([int] skips the blank). *)
Definition blank_char (p : ascii -> bool) (s : string) : list (Z * string) :=
  match s with
  | String a (String b rest) =>
      if Ascii.eqb a " "%char && p b then [(digit_value b, rest)] else []
  | _ => []
  end.

(** The group [(?P<Y>\d\d\d\d)]. *)
Definition group_Y (s : string) : option (Z * string) :=
  match s with
  | String a (String b (String c (String d rest))) =>
      if is_digit a && is_digit b && is_digit c && is_digit d
      then Some (((digit_value a * 10 + digit_value b) * 10 + digit_value c) * 10
                 + digit_value d, rest)
      else None
  | _ => None
  end.

(** The group [(?P<m>1[0-2]|0[1-9]|[1-9])]: the alternatives that match, in
    the order the matcher tries them. *)
Definition group_m (s : string) : list (Z * string) :=
  two_chars (between 1 1) (between 0 2) s ++
  two_chars (between 0 0) (between 1 9) s ++
  one_char (between 1 9) s.

(** The group [(?P<d>3[0-1]|[1-2]\d|0[1-9]|[1-9]| [1-9])]. *)
Definition group_d (s : string) : list (Z * string) :=
  two_chars (between 3 3) (between 0 1) s ++
  two_chars (between 1 2) is_digit s ++
  two_chars (between 0 0) (between 1 9) s ++
  one_char (between 1 9) s ++
  blank_char (between 1 9) s.

(** A literal character of the pattern. *)
Definition literal (c : ascii) (s : string) : option string :=
  match s with
  | String a rest => if Ascii.eqb a c then Some rest else None
  | EmptyString => None
  end.

(** The first alternative after which the rest of the pattern matches. *)
Fixpoint first_match {A B : Type} (alts : list A) (k : A -> option B) : option B :=
  match alts with
  | [] => None
  | a :: rest =>
      match k a with
      | Some b => Some b
      | None => first_match rest k
      end
  end.

(** The match of the whole pattern at the start of the string: year, month,
    day and what is left over. *)
Definition match_ymd (s : string) : option (Z * Z * Z * string) :=
  match group_Y s with
  | None => None
  | Some (y, s1) =>
      match literal "-"%char s1 with
      | None => None
      | Some s2 =>
          first_match (group_m s2)
            (fun ms =>
               match literal "-"%char (snd ms) with
               | None => None
               | Some s3 =>
                   match group_d s3 with
                   | [] => None
                   | ds :: _ => Some (y, fst ms, fst ds, snd ds)
                   end
               end)
      end
  end.

(** The number of days of a month. *)
Definition days_in_month (y m : Z) : Z :=
  if (m =? 2) && is_leap y then 29 else DAYS_IN_MONTH m.

(** [datetime.strptime(s, '%Y-%m-%d')]: the date as its ordinal, or the
    [ValueError]. *)
Definition strptime_ymd (s : string) : result Z :=
  match match_ymd s with
  | None => Raise "time data does not match format '%Y-%m-%d'"
  | Some (y, m, d, rest) =>
      match rest with
      | String _ _ => Raise ("unconverted data remains: " +:+ rest)
      | EmptyString =>
          if y <? 1 then Raise "year 0 is out of range"
          else if days_in_month y m <? d then Raise "day is out of range for month"
          else Ok (ymd2ord y m d)
      end
  end.

(** [validate_date_format]. *)
Definition validate_date_format (date_str : string) : bool :=
  match strptime_ymd date_str with
  | Ok _ => true
  | Raise _ => false
  end.

(** The largest ordinal, 9999-12-31, and the largest [timedelta]. *)
Definition MAXORDINAL : Z := 3652059.
Definition MAX_DELTA_DAYS : Z := 999999999.

(** [get_date_range]: one reading of the clock; the subtraction raises
    [OverflowError] when the [timedelta] or the resulting date is out of
    range. *)
Definition get_date_range (days_back : Z) : M (string * string) :=
  let* end_date := datetime_now in
  if MAX_DELTA_DAYS <? Z.abs days_back
  then raise ("days=" +:+ pretty days_back +:+ "; must have magnitude <= 999999999")
  else
    let start_date := end_date - timedelta_days days_back in
    if (toordinal start_date <? 1) || (MAXORDINAL <? toordinal start_date)
    then raise "date value out of range"
    else ret (strftime_ymd start_date, strftime_ymd end_date).

End Utils.

(* ===================================================================== *)
(** ** 9.2 Further vocabulary and worlds                                 *)
(* ===================================================================== *)

Module RunEvents.
Import PyDatetime PyNum Frame.

Definition is_upload (e : event) : bool :=
  match e with CallUploadToS3 _ _ => true | _ => false end.

Definition is_postgres_call (e : event) : bool :=
  match e with CallLoadToPostgres _ => true | _ => false end.

(** Calls on the loader. *)
Definition is_loader_call (e : event) : bool :=
  match e with
  | CallSaveToCsv _ | CallCreateSummaryStats | CallUploadToS3 _ _
  | CallLoadToPostgres _ | CallGetLoadMetrics => true
  | _ => false
  end.

(** Calls on the extractor or on the transformer. *)
Definition is_extract_or_transform (e : event) : bool :=
  match e with
  | CallFetchRidership _ _ _ | CallFetchWeather _ _ | CallTransformAndMerge => true
  | _ => false
  end.



(** The entries of the metrics a failed run may assign. *)
Definition failed_run_keys : list string :=
  ["start_time"; "status"; "end_time"; "errors"; "transformation"].

(** The S3 key under which a file is uploaded. *)
Definition s3_key (path : string) : string :=
  "transit_weather/" +:+ ETLPipeline.basename path.

End RunEvents.

Module MoreScenarios.
Import PyDatetime PyNum Frame ETLPipeline Scenarios.

(** A transformer whose merge comes back empty (no date in common). *)
Definition disjoint_report : value :=
  VDict [("merged", VDict [("rows", VInt 0)])].

Definition env_empty_merge : Env :=
  {| now_reading := clock 1000;
     extractor := {| fetch_ridership_data := fun _ _ _ => Ok ridership_df;
                     fetch_weather_data := fun _ _ => Ok weather_df |};
     transformer :=
       {| initial_quality_report := VDict [];
          transform_and_merge := fun _ _ _ => (Ok empty_df, disjoint_report) |};
     loader := offline_loader |}.

(** A loader whose uploads succeed and whose database driver raises. *)
Definition raising_db_loader : DataLoader :=
  {| save_to_csv := fun _ name => Ok ("data/processed/" +:+ name);
     create_summary_stats := fun df => Ok df;
     upload_to_s3 := fun _ _ => Ok tt;
     load_to_postgres := fun _ _ => Raise "connection refused";
     get_load_metrics := VDict [("rows_loaded", VInt 0)] |}.

Definition env_db_raises : Env :=
  {| now_reading := clock 1000;
     extractor := {| fetch_ridership_data := fun _ _ _ => Ok ridership_df;
                     fetch_weather_data := fun _ _ => Ok weather_df |};
     transformer := a_transformer;
     loader := raising_db_loader |}.

(** A transformer whose merged table has lost its date column. *)
Definition undated_df : DataFrame :=
  [("ridership", [CInt 100; CInt 200; CInt 300])].

Definition env_undated : Env :=
  {| now_reading := clock 1000;
     extractor := {| fetch_ridership_data := fun _ _ _ => Ok ridership_df;
                     fetch_weather_data := fun _ _ => Ok weather_df |};
     transformer :=
       {| initial_quality_report := VDict [];
          transform_and_merge := fun _ _ _ => (Ok undated_df, report_after) |};
     loader := offline_loader |}.

(** An instance that has gone through a failed run. *)
Definition after_failed_run : State :=
  snd (run None None true env_no_ridership fresh).

(** An instance that has gone through a successful run. *)
Definition after_successful_run : State :=
  snd (run None None true env_ok fresh).

(** An extractor whose ridership source cannot be reached. *)
Definition env_fetch_raises : Env :=
  {| now_reading := clock 1000;
     extractor := {| fetch_ridership_data := fun _ _ _ => Raise "HTTP 503";
                     fetch_weather_data := fun _ _ => Ok weather_df |};
     transformer := a_transformer;
     loader := offline_loader |}.

(** What a call of [run] returned, when it returned. *)
Definition result_of (out : result run_result * State) : run_result :=
  match fst out with
  | Ok res => res
  | Raise _ =>
      {| r_status := EmptyString; r_data := None; r_error := None; r_metrics := ∅ |}
  end.

End MoreScenarios.

(* ===================================================================== *)
(** ** 9.3 Finite checks                                                 *)
(* ===================================================================== *)

Module Checks.
Import PyDatetime.

(** [P] holds on the [len] integers from [lo] on; the range is halved
    [fuel] times at most. *)
Fixpoint forall_range (fuel : nat) (P : Z -> bool) (lo len : Z) : bool :=
  match fuel with
  | O => (len <=? 0) || ((len =? 1) && P lo)
  | S f =>
      if len <=? 1 then (len <=? 0) || P lo
      else let h := len / 2 in
           forall_range f P lo h && forall_range f P (lo + h) (len - h)
  end.

(** The month and the day [_ord2ymd] finds for day [n] (from 0) of a year,
    leap or not: the second half of [ord2ymd]. *)
Definition month_day (n : Z) (leapyear : bool) : Z * Z :=
  let month := Z.shiftr (n + 50) 5 in
  let preceding := DAYS_BEFORE_MONTH month + b2z ((2 <? month) && leapyear) in
  if n <? preceding then
    let month' := month - 1 in
    let preceding' :=
      preceding - (DAYS_IN_MONTH month' + b2z ((month' =? 2) && leapyear)) in
    (month', n - preceding' + 1)
  else (month, n - preceding + 1).

(** What [match_ymd] does after the year and its dash. *)
Definition match_md (s : string) : option (Z * Z * string) :=
  Utils.first_match (Utils.group_m s)
    (fun ms =>
       match Utils.literal "-"%char (snd ms) with
       | None => None
       | Some s3 =>
           match Utils.group_d s3 with
           | [] => None
           | ds :: _ => Some (fst ms, fst ds, snd ds)
           end
       end).

(** Is the result of [match_md] the month [m] and the day [d], with nothing
    left over? *)
Definition is_md (m d : Z) (r : option (Z * Z * string)) : bool :=
  match r with
  | Some (m', d', EmptyString) => (m' =? m) && (d' =? d)
  | _ => false
  end.

End Checks.

(* ===================================================================== *)
(** ** 10. Stepping through monadic code                                 *)
(* ===================================================================== *)

Import PyDatetime PyNum Frame ETLPipeline RunPoints.
Local Open Scope list_scope.

(** Unfolds the monadic operations and the projections of states and
    results, and nothing of the Python runtime.  States are taken apart
    first ([destruct s]), so that the projections compute. *)
Ltac exec :=
  cbv beta iota zeta delta
    [run run_phases run_failed _save_pipeline_metrics main init
     bind ret raise try_except emit datetime_now logger_info logger_warning
     logger_error set_metric get_metrics json_dump_metrics call
     self_transform_and_merge self_get_quality_report
     App.load_data App.new_transformer App.path_exists App.read_parquet
     App.to_parquet App.date_dt
     fst snd ticks json_files parquet_files trace pipeline_metrics
     quality_report r_status r_data r_error r_metrics].

(** Clock readings are counted in unary. *)
Ltac unary := rewrite ?Nat.add_succ_r, ?Nat.add_0_r in *.

(** Lookups in a dictionary built by successive assignments. *)
Ltac map_lookup :=
  repeat first [ rewrite lookup_insert_eq
               | rewrite lookup_insert_ne by (intros ?; discriminate) ].

(** Flattens a trace written as nested appends. *)
Ltac flat_trace := rewrite <- ?app_assoc; cbn [app].

(** One case distinction on the next thing the world decides. *)
Ltac split_call :=
  match goal with
  | |- context [transform_and_merge ?t ?q ?r ?w] =>
      destruct (transform_and_merge t q r w) as [? ?] eqn:?
  | |- context [match ?r with Ok _ => _ | Raise _ => _ end] => destruct r eqn:?
  | |- context [if ?b then _ else _] => destruct b eqn:?
  end.

(** Membership in an explicit list, by position. *)
Ltac in_list :=
  repeat first [ apply list_elem_of_here | apply list_elem_of_further ].

(** Unfolds [run] down to its [try] statement. *)
Ltac exec_prologue :=
  cbv beta iota zeta delta
    [run bind ret emit datetime_now logger_info set_metric
     fst snd ticks json_files parquet_files trace pipeline_metrics
     quality_report].

(** Unfolds [main] around its call of [run]. *)
Ltac exec_main :=
  cbv beta iota zeta delta
    [main init bind ret emit
     fst snd ticks json_files parquet_files trace pipeline_metrics
     quality_report arg_start_date arg_end_date arg_no_db].

(* ===================================================================== *)
(** ** 11. The shape of a run                                            *)
(* ===================================================================== *)

(** The events of a run whose trace is known. *)
Lemma new_events_app (s s' : State) (evs : list event) :
  trace s' = trace s ++ evs -> new_events s s' = evs.
Proof.
  intros H. unfold new_events. rewrite H. apply drop_app_length.
Qed.


(** [run] is its prologue followed by the [try] statement. *)
Lemma run_unfold (env : Env) (s : State) (sd ed : option string) (db : bool) :
  run sd ed db env s =
  try_except
    (run_phases 0%Qc (resolved_start env s sd ed) (resolved_end env s ed) db)
    run_failed env (after_prologue env s sd ed db).
Proof.
  destruct s as [tk jf pf tr pm qr].
  destruct sd as [sd|], ed as [ed|];
    cbv beta iota delta
      [after_prologue resolved_start resolved_end reading date_reads];
    exec_prologue; unary; cbn [Nat.add]; flat_trace; reflexivity.
Qed.

(** The [try] statement always returns: with SUCCESS, or with FAILED and
    the message of the exception; either way the metrics were saved last,
    under the stamp of the last clock reading. *)
Lemma attempt_total (env : Env) (s : State) (x : Qc) (sd ed : string) (db : bool) :
  exists res s' rest,
    try_except (run_phases x sd ed db) run_failed env s = (Ok res, s') /\
    ((r_status res = "SUCCESS" /\ r_error res = None) \/
     (r_status res = "FAILED" /\ exists e, r_error res = Some e)) /\
    pipeline_metrics s' !! "status" = Some (VStr (r_status res)) /\
    r_metrics res = pipeline_metrics s' /\
    json_files s' =
      <[metrics_path (now_reading env (pred (ticks s'))) := pipeline_metrics s']>
        (json_files s) /\
    trace s' = trace s ++
      Log INFO "Extracting ridership data..." :: CallFetchRidership sd ed None :: rest /\
    WriteJson (metrics_path (now_reading env (pred (ticks s')))) ∈ rest.
Proof.
  destruct s as [tk jf pf tr pm qr].
  exec; repeat (split_call; exec).
  all: eexists _, _, _; split; [reflexivity|]; exec.
  all: (split; [first [left; split; reflexivity | right; split; [reflexivity|eexists; reflexivity]]|]).
  all: (split; [map_lookup; reflexivity|]).
  all: (split; [reflexivity|]).
  all: (split; [reflexivity|]).
  all: (split; [flat_trace; reflexivity|]).
  all: unfold metrics_path; in_list.
Qed.


(** When every call of the first three phases other than the uploads
    answers, and the frames are not empty, the [try] statement ends with
    SUCCESS, whatever the uploads do; a failed upload leaves a warning. *)
Lemma attempt_success (env : Env) (s : State) (x : Qc) (sd ed : string)
    (db : bool) (rdf wdf mdf sdf : DataFrame) (rep : value) (csv spath : string)
    (dbs : bool) :
  fetch_ridership_data (extractor env) sd ed None = Ok rdf ->
  df_empty rdf = false ->
  fetch_weather_data (extractor env) sd ed = Ok wdf ->
  df_empty wdf = false ->
  transform_and_merge (transformer env) (quality_report s) rdf wdf = (Ok mdf, rep) ->
  df_empty mdf = false ->
  save_to_csv (loader env) mdf (csv_file env s) = Ok csv ->
  create_summary_stats (loader env) mdf = Ok sdf ->
  save_to_csv (loader env) sdf (summary_file env s) = Ok spath ->
  (if db then load_to_postgres (loader env) mdf "transit_weather_analytics" = Ok dbs
   else dbs = false) ->
  exists res s' evs,
    try_except (run_phases x sd ed db) run_failed env s = (Ok res, s') /\
    r_status res = "SUCCESS" /\
    r_data res = Some mdf /\
    r_metrics res = pipeline_metrics s' /\
    pipeline_metrics s' = success_metrics env s x rdf wdf mdf rep csv spath dbs /\
    trace s' = trace s ++ evs /\
    Forall (fun e => forall m, e <> Log ERROR m) evs /\
    (forall e,
       upload_to_s3 (loader env) csv ("transit_weather/" +:+ basename csv) = Raise e ->
       Log WARNING ("S3 upload failed: " +:+ e) ∈ evs) /\
    (forall e,
       upload_to_s3 (loader env) csv ("transit_weather/" +:+ basename csv) = Ok tt ->
       upload_to_s3 (loader env) spath ("transit_weather/" +:+ basename spath) = Raise e ->
       Log WARNING ("S3 upload failed: " +:+ e) ∈ evs).
Proof.
  destruct s as [tk jf pf tr pm qr].
  cbv beta iota delta [csv_file summary_file reading ticks quality_report].
  unary. intros Hr Hre Hw Hwe Ht Hte Hc Hs Hp Hdb.
  exec. rewrite Hr. exec. rewrite Hre. exec. rewrite Hw. exec. rewrite Hwe.
  exec. rewrite Ht. exec. rewrite Hte. exec. rewrite Hc. exec. rewrite Hs.
  exec. rewrite Hp. exec.
  destruct db; [rewrite Hdb | subst dbs]; exec; repeat (split_call; exec).
  all: eexists _, _, _; split; [reflexivity|]; exec.
  all: (split; [reflexivity|]).
  all: (split; [reflexivity|]).
  all: (split; [reflexivity|]).
  all: (split; [cbv beta iota delta [success_metrics transformation_seconds loading_seconds reading ticks pipeline_metrics]; unary; reflexivity|]).
  all: (split; [flat_trace; reflexivity|]).
  all: (split; [repeat constructor; intros ? ?; discriminate|]).
  all: split; intros e; intros; try congruence.
  all: try (match goal with H : Raise _ = Raise _ |- _ => injection H as <- end).
  all: in_list.
Qed.

(** Conversely, a [try] statement that ends with SUCCESS went through
    every call of the first three phases, and none of the frames was
    empty. *)
Lemma attempt_success_inv (env : Env) (s : State) (x : Qc) (sd ed : string)
    (db : bool) (res : run_result) (s' : State) :
  try_except (run_phases x sd ed db) run_failed env s = (Ok res, s') ->
  r_status res = "SUCCESS" ->
  exists rdf wdf mdf sdf rep csv spath dbs,
    fetch_ridership_data (extractor env) sd ed None = Ok rdf /\
    df_empty rdf = false /\
    fetch_weather_data (extractor env) sd ed = Ok wdf /\
    df_empty wdf = false /\
    transform_and_merge (transformer env) (quality_report s) rdf wdf = (Ok mdf, rep) /\
    df_empty mdf = false /\
    save_to_csv (loader env) mdf (csv_file env s) = Ok csv /\
    create_summary_stats (loader env) mdf = Ok sdf /\
    save_to_csv (loader env) sdf (summary_file env s) = Ok spath /\
    (if db then load_to_postgres (loader env) mdf "transit_weather_analytics" = Ok dbs
     else dbs = false).
Proof.
  destruct s as [tk jf pf tr pm qr].
  cbv beta iota delta [csv_file summary_file reading ticks quality_report].
  unary. exec; repeat (split_call; exec).
  all: intros Hrun Hst; injection Hrun as <- <-; try discriminate Hst.
  all: eexists _, _, _, _, _, _, _, _.
  all: repeat match goal with |- _ /\ _ => split end.
  all: first [reflexivity | eassumption].
Qed.

(* ===================================================================== *)
(** ** 12. Failure on an empty ridership extraction                      *)
(* ===================================================================== *)

(** C1.  When the ridership fetch returns an empty table, the run ends
    with status FAILED and the error "No ridership data extracted"; no call
    of the transformation or of the loading phase is made; and a metrics
    file whose status is FAILED, carrying that error, is written. *)
Theorem empty_ridership_fails_run (env : Env) (s : State) (sd ed : option string)
    (db : bool) (r : DataFrame) :
  fetch_ridership_data (extractor env)
    (resolved_start env s sd ed) (resolved_end env s ed) None = Ok r ->
  df_empty r = true ->
  exists res s',
    run sd ed db env s = (Ok res, s') /\
    r_status res = "FAILED" /\
    r_error res = Some "No ridership data extracted" /\
    pipeline_metrics s' !! "status" = Some (VStr "FAILED") /\
    Forall (fun e => is_transform_or_load e = false) (new_events s s') /\
    exists path snap ts,
      WriteJson path ∈ new_events s s' /\
      json_files s' !! path = Some snap /\
      snap !! "status" = Some (VStr "FAILED") /\
      snap !! "errors" =
        Some (VList [VDict [("error", VStr "No ridership data extracted");
                            ("timestamp", VStr ts)]]).
Proof.
  intros Hfetch Hempty.
  destruct s as [tk jf pf tr pm qr].
  destruct sd as [sd|], ed as [ed|];
    cbv beta iota delta [resolved_start resolved_end reading ticks] in Hfetch;
    unary; exec; rewrite Hfetch; exec; rewrite Hempty; exec.
  all: eexists _, _; split; [reflexivity|]; exec.
  all: split; [reflexivity|]; split; [reflexivity|].
  all: split; [map_lookup; reflexivity|].
  all: erewrite new_events_app by (cbv [trace]; flat_trace; reflexivity).
  all: split; [repeat constructor|].
  all: eexists _, _, _; split;
    [|split; [apply lookup_insert_eq|split; map_lookup; reflexivity]].
  all: in_list.
Qed.

(** Scenario B of the specification: empty ridership, weather at hand. *)
Lemma empty_ridership_fails_run_scenario_B :
  exists res s',
    run None None true Scenarios.env_no_ridership Scenarios.fresh = (Ok res, s') /\
    r_status res = "FAILED" /\
    r_error res = Some "No ridership data extracted" /\
    pipeline_metrics s' !! "status" = Some (VStr "FAILED") /\
    Forall (fun e => is_transform_or_load e = false)
           (new_events Scenarios.fresh s') /\
    exists path snap ts,
      WriteJson path ∈ new_events Scenarios.fresh s' /\
      json_files s' !! path = Some snap /\
      snap !! "status" = Some (VStr "FAILED") /\
      snap !! "errors" =
        Some (VList [VDict [("error", VStr "No ridership data extracted");
                            ("timestamp", VStr ts)]]).
Proof.
  exact (empty_ridership_fails_run Scenarios.env_no_ridership Scenarios.fresh
           None None true Scenarios.empty_df eq_refl eq_refl).
Defined.

(* ===================================================================== *)
(** ** 13. Secondary sinks                                               *)
(* ===================================================================== *)

(** C3.  When extraction and transformation succeed (both fetches and the
    transformer return frames that are not empty) and the local CSV
    persistence succeeds (both [save_to_csv] calls and the summary they
    save), the run ends with status SUCCESS whatever [upload_to_s3] does: an
    exception of either upload is caught and logged as a warning.  When the
    database load is requested and [load_to_postgres] returns [dbs] (false
    in particular), the run still ends with SUCCESS and records
    [database_success = dbs] in the metrics it saves. *)
Theorem secondary_sinks_do_not_fail_run (env : Env) (s : State)
    (sd ed : option string) (db : bool) (rdf wdf mdf sdf : DataFrame)
    (rep : value) (csv spath : string) (dbs : bool) :
  fetch_ridership_data (extractor env)
    (resolved_start env s sd ed) (resolved_end env s ed) None = Ok rdf ->
  df_empty rdf = false ->
  fetch_weather_data (extractor env)
    (resolved_start env s sd ed) (resolved_end env s ed) = Ok wdf ->
  df_empty wdf = false ->
  transform_and_merge (transformer env) (quality_report s) rdf wdf = (Ok mdf, rep) ->
  df_empty mdf = false ->
  save_to_csv (loader env) mdf (csv_file env (after_prologue env s sd ed db)) = Ok csv ->
  create_summary_stats (loader env) mdf = Ok sdf ->
  save_to_csv (loader env) sdf (summary_file env (after_prologue env s sd ed db))
    = Ok spath ->
  (if db then load_to_postgres (loader env) mdf "transit_weather_analytics" = Ok dbs
   else dbs = false) ->
  exists res s',
    run sd ed db env s = (Ok res, s') /\
    r_status res = "SUCCESS" /\
    pipeline_metrics s' !! "status" = Some (VStr "SUCCESS") /\
    json_files s' !! metrics_path (now_reading env (pred (ticks s')))
      = Some (pipeline_metrics s') /\
    metric_field (pipeline_metrics s') "loading" "database_success"
      = Some (VBool dbs) /\
    (forall e,
       upload_to_s3 (loader env) csv ("transit_weather/" +:+ basename csv) = Raise e ->
       Log WARNING ("S3 upload failed: " +:+ e) ∈ new_events s s') /\
    (forall e,
       upload_to_s3 (loader env) csv ("transit_weather/" +:+ basename csv) = Ok tt ->
       upload_to_s3 (loader env) spath ("transit_weather/" +:+ basename spath) = Raise e ->
       Log WARNING ("S3 upload failed: " +:+ e) ∈ new_events s s').
Proof.
  intros Hr Hre Hw Hwe Ht Hte Hc Hs Hp Hdb.
  rewrite run_unfold.
  destruct (attempt_success env (after_prologue env s sd ed db) 0%Qc _ _ db
              rdf wdf mdf sdf rep csv spath dbs Hr Hre Hw Hwe Ht Hte Hc Hs Hp Hdb)
    as (res & s' & evs & Hrun & Hst & _ & _ & Hpm & Htr & _ & Hu1 & Hu2).
  destruct (attempt_total env (after_prologue env s sd ed db) 0%Qc
              (resolved_start env s sd ed) (resolved_end env s ed) db)
    as (res0 & s0 & rest & Hrun0 & _ & _ & _ & Hjs & _ & _).
  rewrite Hrun in Hrun0. injection Hrun0 as <- <-.
  exists res, s'. split; [exact Hrun|]. split; [exact Hst|].
  split; [rewrite Hpm; unfold success_metrics; map_lookup; reflexivity|].
  split; [rewrite Hjs; apply lookup_insert_eq|].
  split; [rewrite Hpm; unfold success_metrics, metric_field; map_lookup; reflexivity|].
  assert (Hnew : new_events s s' = new_events s (after_prologue env s sd ed db) ++ evs).
  { unfold new_events. rewrite Htr. cbn [after_prologue trace].
    rewrite <- app_assoc, !drop_app_length. reflexivity. }
  rewrite Hnew. split; intros e; intros; apply elem_of_app; right; eauto.
Qed.

(** Scenario C of the specification: no bucket, database out of reach. *)
Lemma secondary_sinks_scenario_C :
  exists res s',
    run None None true Scenarios.env_ok Scenarios.fresh = (Ok res, s') /\
    r_status res = "SUCCESS" /\
    metric_field (pipeline_metrics s') "loading" "database_success"
      = Some (VBool false) /\
    Log WARNING ("S3 upload failed: " +:+ "S3 bucket not configured")
      ∈ new_events Scenarios.fresh s'.
Proof.
  destruct (secondary_sinks_do_not_fail_run Scenarios.env_ok Scenarios.fresh
              None None true
              Scenarios.ridership_df Scenarios.weather_df Scenarios.merged_df
              Scenarios.merged_df Scenarios.report_after
              ("data/processed/" +:+
               csv_file Scenarios.env_ok
                 (after_prologue Scenarios.env_ok Scenarios.fresh None None true))
              ("data/processed/" +:+
               summary_file Scenarios.env_ok
                 (after_prologue Scenarios.env_ok Scenarios.fresh None None true))
              false
              eq_refl eq_refl eq_refl eq_refl eq_refl eq_refl eq_refl eq_refl
              eq_refl eq_refl)
    as (res & s' & Hrun & Hst & _ & _ & Hdb & Hs3 & _).
  exists res, s'.
  split; [exact Hrun|]. split; [exact Hst|]. split; [exact Hdb|].
  apply Hs3. reflexivity.
Defined.

(* ===================================================================== *)
(** ** 14. The two scores                                                *)
(* ===================================================================== *)





(* ===================================================================== *)
(** ** 15. The metrics file                                              *)
(* ===================================================================== *)

(** C6, as amended.  Every run returns, with status SUCCESS or FAILED, and
    the last thing it does is to save its metrics, status included, under
    the path [data/processed/pipeline_metrics_<stamp>.json], where the stamp
    is the last clock reading at the resolution of a second; the files at
    other paths stay as they were.  (Nothing keeps two runs from saving
    within one second, hence under one path.) *)
Theorem run_always_saves_metrics (env : Env) (s : State) (sd ed : option string)
    (db : bool) :
  exists res s',
    run sd ed db env s = (Ok res, s') /\
    (r_status res = "SUCCESS" \/ r_status res = "FAILED") /\
    pipeline_metrics s' !! "status" = Some (VStr (r_status res)) /\
    json_files s' =
      <[metrics_path (now_reading env (pred (ticks s'))) := pipeline_metrics s']>
        (json_files s) /\
    WriteJson (metrics_path (now_reading env (pred (ticks s')))) ∈ new_events s s'.
Proof.
  rewrite run_unfold.
  destruct (attempt_total env (after_prologue env s sd ed db) 0%Qc
              (resolved_start env s sd ed) (resolved_end env s ed) db)
    as (res & s' & rest & Hrun & Hst & Hpm & _ & Hjs & Htr & Hin).
  exists res, s'. split; [exact Hrun|].
  split; [destruct Hst as [[H _]|[H _]]; auto|].
  split; [exact Hpm|]. split; [exact Hjs|].
  unfold new_events. rewrite Htr. cbn [after_prologue trace].
  rewrite <- app_assoc, drop_app_length.
  apply elem_of_app; right. do 2 apply list_elem_of_further. exact Hin.
Qed.


(** C6 as stated fails: two invocations within one second, the second
    replaces the metrics file of the first. *)
Lemma second_run_overwrites_metrics_file :
  json_files (snd (main Scenarios.no_args Scenarios.env_no_ridership Scenarios.boot))
    !! "data/processed/pipeline_metrics_20261104_120000.json"
    ≫= (fun snap => snap !! "errors")
    = Some (VList [VDict [("error", VStr "No ridership data extracted");
                          ("timestamp", VStr "2026-11-04T12:00:00.005000")]]) /\
  json_files (snd (main Scenarios.no_args Scenarios.env_no_weather
                     (snd (main Scenarios.no_args Scenarios.env_no_ridership Scenarios.boot))))
    !! "data/processed/pipeline_metrics_20261104_120000.json"
    ≫= (fun snap => snap !! "errors")
    = Some (VList [VDict [("error", VStr "No weather data extracted");
                          ("timestamp", VStr "2026-11-04T12:00:00.012000")]]) /\
  size (json_files (snd (main Scenarios.no_args Scenarios.env_no_weather
                           (snd (main Scenarios.no_args Scenarios.env_no_ridership Scenarios.boot))))) = 1%nat.
Proof.
  split; [vm_compute; reflexivity|].
  split; [vm_compute; reflexivity|].
  vm_compute; reflexivity.
Qed.

(* ===================================================================== *)
(** ** 16. The command line                                              *)
(* ===================================================================== *)

(** C9.  For every invocation (arguments parsed), [run] returns, and the
    exit code of the process is 0 exactly when the status of the run is
    SUCCESS and 1 exactly when it is FAILED; when it is FAILED the summary
    printed holds the line ["Error: "] followed by the error message. *)
Theorem exit_code_reflects_status (env : Env) (s : State) (args : Args) :
  exists res s1 code s',
    run (arg_start_date args) (arg_end_date args) (negb (arg_no_db args)) env
        (snd ((emit (Makedirs "logs") >> init) env s)) = (Ok res, s1) /\
    main args env s = (Ok code, s') /\
    (exit_code (Ok code) = 0 <-> r_status res = "SUCCESS") /\
    (exit_code (Ok code) = 1 <-> r_status res = "FAILED") /\
    (r_status res = "SUCCESS" \/
     exists e, r_status res = "FAILED" /\ r_error res = Some e /\
               Print ("Error: " +:+ e) ∈ new_events s s').
Proof.
  destruct s as [tk jf pf tr pm qr]. destruct args as [sd ed nodb].
  exec_main.
  match goal with
  | |- context [run ?a ?b ?c ?e ?st] =>
      rewrite !(run_unfold e st a b c);
      destruct (attempt_total e (after_prologue e st a b c) 0%Qc
                  (resolved_start e st a b) (resolved_end e st b) c)
        as (res & s1 & rest & Hrun & Hst & _ & _ & _ & Htr & _)
  end.
  rewrite Hrun. destruct res as [st data err metrics].
  cbn [r_status r_error] in Hst.
  destruct Hst as [[-> ->]|[-> [e ->]]].
  - exec_main. cbn [String.eqb Ascii.eqb Bool.eqb].
    cbv beta iota zeta delta [r_status r_data r_metrics r_error].
    destruct data as [data|]; [destruct (negb (df_empty data))|]; exec_main;
      (eexists _, _, _, _; split; [reflexivity|]; split; [reflexivity|];
       cbn [exit_code r_status]; split; [tauto|]; split; [|left; reflexivity];
       split; intros H; discriminate H).
  - exec_main. cbn [String.eqb Ascii.eqb Bool.eqb].
    cbv beta iota zeta delta [r_status r_data r_metrics r_error].
    eexists _, _, _, _; split; [reflexivity|]; split; [reflexivity|].
    cbn [exit_code r_status]. split; [split; intros H; discriminate H|].
    split; [tauto|]. right. exists e. split; [reflexivity|]. split; [reflexivity|].
    unfold new_events. destruct s1 as [tk1 jf1 pf1 tr1 pm1 qr1].
    cbn [trace] in *. rewrite Htr. cbn [after_prologue trace default].
    rewrite <- !app_assoc, drop_app_length.
    repeat (apply elem_of_app; right). in_list.
Qed.

(* ===================================================================== *)
(** ** 17. The default date range                                        *)
(* ===================================================================== *)

(** The date of a time stamp depends on its ordinal day only. *)
Lemma strftime_ymd_ordinal (t : datetime) :
  strftime_ymd t = format_ordinal (toordinal t).
Proof. reflexivity. Qed.

(** Going back [n] days moves the ordinal by [n]. *)
Lemma toordinal_minus_days (t : datetime) (n : Z) :
  toordinal (t - timedelta_days n) = toordinal t - n.
Proof.
  unfold toordinal, timedelta_days.
  replace (t - n * US_PER_DAY) with (t + (- n) * US_PER_DAY) by ring.
  rewrite Z.div_add by (unfold US_PER_DAY, US_PER_SECOND; lia). ring.
Qed.


(** C4, as amended.  The dates handed to the extractor are: for the end,
    the caller's, or else the date of the clock reading taken for it
    (today); for the start, the caller's, or else the date of a further
    clock reading minus 365 days (today minus 365 days), whether or not the
    caller supplied an end date.  When both are left out and the two
    readings fall on one day, the start is the resolved end minus 365
    days. *)
Theorem default_start_is_today_minus_365 (env : Env) (s : State)
    (sd ed : option string) (db : bool) :
  exists res s',
    run sd ed db env s = (Ok res, s') /\
    fetch_dates (new_events s s')
      = Some (resolved_start env s sd ed, resolved_end env s ed) /\
    resolved_end env s None = format_ordinal (toordinal (reading env s 1)) /\
    resolved_start env s None None
      = format_ordinal (toordinal (reading env s 2) - 365) /\
    (forall d, resolved_end env s (Some d) = d /\
               resolved_start env s (Some d) ed = d /\
               resolved_start env s None (Some d)
                 = format_ordinal (toordinal (reading env s 1) - 365)) /\
    (toordinal (reading env s 2) = toordinal (reading env s 1) ->
     resolved_start env s None None
       = format_ordinal (toordinal (reading env s 1) - 365)).
Proof.
  rewrite run_unfold.
  destruct (attempt_total env (after_prologue env s sd ed db) 0%Qc
              (resolved_start env s sd ed) (resolved_end env s ed) db)
    as (res & s' & rest & Hrun & _ & _ & _ & _ & Htr & _).
  exists res, s'. split; [exact Hrun|].
  split.
  { unfold new_events. rewrite Htr. cbn [after_prologue trace].
    rewrite <- app_assoc, drop_app_length. reflexivity. }
  split; [reflexivity|].
  split; [cbn [resolved_start]; rewrite strftime_ymd_ordinal, toordinal_minus_days; reflexivity|].
  split.
  { intros d. split; [reflexivity|]. split; [reflexivity|].
    cbn [resolved_start]. rewrite strftime_ymd_ordinal, toordinal_minus_days.
    reflexivity. }
  intros Hday. cbn [resolved_start].
  rewrite strftime_ymd_ordinal, toordinal_minus_days, Hday. reflexivity.
Qed.


(** The default range of a run started on 2026-11-04. *)
Lemma default_range_of_scenario_run :
  exists res s',
    run None None true Scenarios.env_ok Scenarios.fresh = (Ok res, s') /\
    fetch_dates (new_events Scenarios.fresh s') = Some ("2025-11-04", "2026-11-04").
Proof.
  destruct (default_start_is_today_minus_365 Scenarios.env_ok Scenarios.fresh
              None None true)
    as (res & s' & Hrun & Hdates & _ & _ & _ & Hsame).
  exists res, s'. split; [exact Hrun|].
  rewrite Hdates, (Hsame eq_refl). vm_compute. reflexivity.
Defined.

(** C4 as stated fails: with the end date 2020-01-01 supplied and no start
    date, a run on 2026-11-04 asks for the range from 2025-11-04, not from
    2019-01-01. *)
Lemma default_start_ignores_supplied_end :
  fetch_dates (trace (snd (run None (Some "2020-01-01") false Scenarios.env_ok Scenarios.fresh)))
    = Some ("2025-11-04", "2020-01-01") /\
  strftime_ymd (mk_datetime 2020 1 1 0 0 0 0 - timedelta_days 365) = "2019-01-01" /\
  fetch_dates (trace (snd (run None (Some "2020-01-01") false Scenarios.env_ok Scenarios.fresh)))
    <> Some (strftime_ymd (mk_datetime 2020 1 1 0 0 0 0 - timedelta_days 365),
             "2020-01-01").
Proof.
  assert (H : fetch_dates (trace (snd (run None (Some "2020-01-01") false Scenarios.env_ok Scenarios.fresh)))
    = Some ("2025-11-04", "2020-01-01")) by (vm_compute; reflexivity).
  split; [exact H|]. split; [vm_compute; reflexivity|].
  rewrite H. vm_compute. intros E. discriminate E.
Qed.


(* ===================================================================== *)
(** ** 18. Phase durations                                               *)
(* ===================================================================== *)

(** C7 does not hold of the code.  With 2.5 seconds between two clock
    readings, a successful run spends 2.5 seconds between [extraction_start]
    and [transformation_start]; its metrics hold no entry for the extraction
    phase, durations of 2.5 and 5 seconds for the transformation and the
    loading, and a total of 7.5 seconds: [extraction_time] is still the 0 it
    was initialised with. *)
Theorem extraction_time_is_never_measured :
  pipeline_metrics (snd (run None None true Scenarios.env_ok Scenarios.fresh)) !! "status"
    = Some (VStr "SUCCESS") /\
  this (total_seconds (now_reading Scenarios.env_ok 4) (now_reading Scenarios.env_ok 3)) = (5 # 2)%Q /\
  pipeline_metrics (snd (run None None true Scenarios.env_ok Scenarios.fresh)) !! "extraction" = None /\
  metric_field (pipeline_metrics (snd (run None None true Scenarios.env_ok Scenarios.fresh)))
    "transformation" "duration_seconds" = Some (VNum (Q2Qc (250 # 100))) /\
  metric_field (pipeline_metrics (snd (run None None true Scenarios.env_ok Scenarios.fresh)))
    "loading" "duration_seconds" = Some (VNum (Q2Qc (500 # 100))) /\
  pipeline_metrics (snd (run None None true Scenarios.env_ok Scenarios.fresh)) !! "total_duration_seconds"
    = Some (VNum (Q2Qc (750 # 100))).
Proof.
  repeat split; vm_compute; reflexivity.
Qed.

(* ===================================================================== *)
(** ** 19. The dashboard loader                                          *)
(* ===================================================================== *)

(** Reading back the column just assigned. *)
Lemma df_get_set_eq (k : string) (c : list cell) (df : DataFrame) :
  df_get k (df_set k c df) = Some c.
Proof.
  induction df as [|[k' c'] df IH]; cbn [df_set df_get].
  - rewrite String.eqb_refl. reflexivity.
  - destruct (String.eqb k' k) eqn:E; cbn [df_get]; rewrite E; [reflexivity|exact IH].
Qed.

(** Assigning a column leaves the others as they were. *)
Lemma df_get_set_ne (k k' : string) (c : list cell) (df : DataFrame) :
  k <> k' -> df_get k' (df_set k c df) = df_get k' df.
Proof.
  intros Hne. induction df as [|[k0 c0] df IH]; cbn [df_set df_get].
  - destruct (String.eqb k k') eqn:E; [apply String.eqb_eq in E; contradiction|reflexivity].
  - destruct (String.eqb k0 k) eqn:E; cbn [df_get].
    + apply String.eqb_eq in E. subst k0.
      destruct (String.eqb k k') eqn:E'; [apply String.eqb_eq in E'; contradiction|reflexivity].
    + destruct (String.eqb k0 k'); [reflexivity|exact IH].
Qed.

(** A mapped column, row by row. *)
Lemma map_lookup_Some {A B : Type} (f : A -> B) (l : list A) (i : nat) (x : A) :
  l !! i = Some x -> List.map f l !! i = Some (f x).
Proof.
  revert i. induction l as [|y l IH]; intros [|i] H; try discriminate H.
  - injection H as ->. reflexivity.
  - cbn. apply IH. exact H.
Qed.

(** Reads of the date column while the calendar columns are assigned. *)
Ltac calendar_step Hd Hf :=
  rewrite ?df_get_set_ne by (intros ?; discriminate);
  rewrite Hd; exec; rewrite Hf; exec.

(** [load_data] either raises, which with a cache at hand happens only
    when its date column is not datetime-like, or returns the frame it
    loaded with the five calendar columns assigned from the dates; with a
    cache at hand the frame is the cached one, the report is that of the
    new transformer, and nothing but the cache read took place. *)
Lemma load_data_outcome (env : Env) (s : State) :
  exists loaded s',
    ((App.load_data env s = (Raise loaded, s') /\
      forall cached dates,
        parquet_files s !! App.CACHE_FILE = Some cached ->
        df_get "date" cached = Some dates ->
        forallb is_datetimelike dates = false) \/
     exists df qr dates,
       App.load_data env s = (Ok (App.with_calendar_columns dates df, qr), s') /\
       df_get "date" df = Some dates /\
       forallb is_datetimelike dates = true /\
       (forall cached, parquet_files s !! App.CACHE_FILE = Some cached ->
                       df = cached /\ qr = initial_quality_report (transformer env))) /\
    (forall cached, parquet_files s !! App.CACHE_FILE = Some cached ->
       new_events s s' =
         [StInfo "Loading cached merged data..."; ReadParquet App.CACHE_FILE]).
Proof.
  destruct s as [tk jf pf tr pm qr]. exec.
  destruct (pf !! App.CACHE_FILE) as [cached|] eqn:Hc.
  - rewrite bool_decide_true by eauto. exec. rewrite Hc. exec.
    destruct (df_get "date" cached) as [dates|] eqn:Hd; exec;
      [destruct (forallb is_datetimelike dates) eqn:Hf; exec|].
    + do 4 calendar_step Hd Hf.
      eexists EmptyString, _. split.
      * right. exists cached, (initial_quality_report (transformer env)), dates.
        split; [reflexivity|]. split; [exact Hd|]. split; [exact Hf|].
        intros c Hc'. injection Hc' as <-. split; reflexivity.
      * intros c _. apply new_events_app. cbn [trace]. flat_trace. reflexivity.
    + eexists _, _. split; [left; split; [reflexivity|]|].
      * intros c ds Hc' Hd'. injection Hc' as <-. congruence.
      * intros c _. apply new_events_app. cbn [trace]. flat_trace. reflexivity.
    + eexists _, _. split; [left; split; [reflexivity|]|].
      * intros c ds Hc' Hd'. injection Hc' as <-. congruence.
      * intros c _. apply new_events_app. cbn [trace]. flat_trace. reflexivity.
  - rewrite bool_decide_false by (intros [? ?]; discriminate). exec.
    repeat (split_call; exec).
    all: try (eexists _, _; split;
                [left; split; [reflexivity|intros c ds Hc'; discriminate Hc']
                |intros c Hc'; discriminate Hc']).
    all: match goal with
         | |- context [df_get "date" ?df] =>
             destruct (df_get "date" df) as [dates|] eqn:Hd; exec;
               [destruct (forallb is_datetimelike dates) eqn:Hf; exec|]
         end.
    all: try (eexists _, _; split;
                [left; split; [reflexivity|intros c ds Hc'; discriminate Hc']
                |intros c Hc'; discriminate Hc']).
    do 4 calendar_step Hd Hf.
    eexists EmptyString, _. split; [|intros c Hc'; discriminate Hc'].
    right. eexists _, _, dates. split; [reflexivity|].
    split; [exact Hd|]. split; [exact Hf|]. intros c Hc'; discriminate Hc'.
Qed.

(** C8.  In the table [load_data] returns, the calendar fields stored in
    every row are the ones computed from the date of that row: the year,
    the month, the month name, the day name and the year-month key
    ([dt_year] and its companions: on a time stamp the field of section 1,
    on a missing date the missing value), whatever the loaded table held in
    these columns before. *)
Theorem served_calendar_fields_agree (env : Env) (s : State) (df : DataFrame)
    (qr : value) (s' : State) :
  App.load_data env s = (Ok (df, qr), s') ->
  exists dates,
    df_get "date" df = Some dates /\
    forall i c,
      dates !! i = Some c ->
      df_get "year" df ≫= (fun col => col !! i) = Some (dt_year c) /\
      df_get "month" df ≫= (fun col => col !! i) = Some (dt_month c) /\
      df_get "month_name" df ≫= (fun col => col !! i) = Some (dt_month_name c) /\
      df_get "day_name" df ≫= (fun col => col !! i) = Some (dt_day_name c) /\
      df_get "year_month" df ≫= (fun col => col !! i) = Some (dt_year_month c).
Proof.
  intros Hload.
  destruct (load_data_outcome env s)
    as (l & s0 & [[Hr _] | (df0 & qr0 & dates & Hrun & Hd & _ & _)] & _);
    rewrite Hload in *; [discriminate Hr|].
  injection Hrun as -> -> ->.
  exists dates. unfold App.with_calendar_columns.
  split; [rewrite !df_get_set_ne by (intros ?; discriminate); exact Hd|].
  intros i c Hi.
  repeat split;
    rewrite ?df_get_set_ne by (intros ?; discriminate);
    rewrite df_get_set_eq; cbn [mbind option_bind];
    first [ exact (map_lookup_Some dt_year _ _ _ Hi)
          | exact (map_lookup_Some dt_month _ _ _ Hi)
          | exact (map_lookup_Some dt_month_name _ _ _ Hi)
          | exact (map_lookup_Some dt_day_name _ _ _ Hi)
          | exact (map_lookup_Some dt_year_month _ _ _ Hi) ].
Qed.

(** The theorem at a cache whose calendar columns are stale. *)
Lemma served_calendar_fields_of_stale_cache :
  exists dates,
    df_get "date" (App.with_calendar_columns
                     [Scenarios.d 2024 1 1; Scenarios.d 2024 2 29; NaT] Scenarios.stale_cache) = Some dates /\
    forall i c,
      dates !! i = Some c ->
      df_get "year" (App.with_calendar_columns
                       [Scenarios.d 2024 1 1; Scenarios.d 2024 2 29; NaT] Scenarios.stale_cache)
        ≫= (fun col => col !! i) = Some (dt_year c) /\
      df_get "month" (App.with_calendar_columns
                        [Scenarios.d 2024 1 1; Scenarios.d 2024 2 29; NaT] Scenarios.stale_cache)
        ≫= (fun col => col !! i) = Some (dt_month c) /\
      df_get "month_name" (App.with_calendar_columns
                             [Scenarios.d 2024 1 1; Scenarios.d 2024 2 29; NaT] Scenarios.stale_cache)
        ≫= (fun col => col !! i) = Some (dt_month_name c) /\
      df_get "day_name" (App.with_calendar_columns
                           [Scenarios.d 2024 1 1; Scenarios.d 2024 2 29; NaT] Scenarios.stale_cache)
        ≫= (fun col => col !! i) = Some (dt_day_name c) /\
      df_get "year_month" (App.with_calendar_columns
                             [Scenarios.d 2024 1 1; Scenarios.d 2024 2 29; NaT] Scenarios.stale_cache)
        ≫= (fun col => col !! i) = Some (dt_year_month c).
Proof.
  apply (served_calendar_fields_agree Scenarios.env_ok Scenarios.with_cache
           (App.with_calendar_columns [Scenarios.d 2024 1 1; Scenarios.d 2024 2 29; NaT] Scenarios.stale_cache)
           (VDict []) (snd (App.load_data Scenarios.env_ok Scenarios.with_cache))).
  vm_compute. reflexivity.
Defined.

(** What the dashboard is served from the stale cache: the years and the
    day names of the dates, not the stored ones. *)
Example stale_columns_are_recomputed :
  df_get "year" (App.with_calendar_columns
                   [Scenarios.d 2024 1 1; Scenarios.d 2024 2 29; NaT] Scenarios.stale_cache)
    = Some [CInt 2024; CInt 2024; NaN] /\
  df_get "day_name" (App.with_calendar_columns
                       [Scenarios.d 2024 1 1; Scenarios.d 2024 2 29; NaT] Scenarios.stale_cache)
    = Some [CStr "Monday"; CStr "Thursday"; NaN].
Proof. split; vm_compute; reflexivity. Qed.

(** C10.  When the cache file exists, [load_data] does nothing but read
    it: no fetch, no [transform_and_merge].  What it returns is the cached
    table (with the calendar columns assigned) paired with the quality
    report of the transformer it has just constructed, which is the same for
    every content of the cache; and it does return whenever the date
    column of the cache is datetime-like. *)
Theorem cached_load_pairs_unused_report (env : Env) (s : State)
    (cached : DataFrame) :
  parquet_files s !! App.CACHE_FILE = Some cached ->
  exists r s',
    App.load_data env s = (r, s') /\
    new_events s s' =
      [StInfo "Loading cached merged data..."; ReadParquet App.CACHE_FILE] /\
    (forall df qr,
       r = Ok (df, qr) ->
       qr = initial_quality_report (transformer env) /\
       exists dates,
         df_get "date" cached = Some dates /\
         df = App.with_calendar_columns dates cached) /\
    (forall dates,
       df_get "date" cached = Some dates ->
       forallb is_datetimelike dates = true ->
       r = Ok (App.with_calendar_columns dates cached,
               initial_quality_report (transformer env))).
Proof.
  intros Hc.
  destruct (load_data_outcome env s)
    as (l & s0 & [[Hr Hbad] | (df0 & qr0 & dates & Hrun & Hd & Hf & Hcache)] & Hev).
  - exists (Raise l), s0. split; [exact Hr|]. split; [exact (Hev _ Hc)|].
    split; [intros df qr H; discriminate H|].
    intros dates Hd Hf. rewrite (Hbad _ _ Hc Hd) in Hf. discriminate Hf.
  - destruct (Hcache _ Hc) as [-> ->].
    eexists _, s0. split; [exact Hrun|]. split; [exact (Hev _ Hc)|].
    split.
    + intros df qr H. injection H as <- <-. split; [reflexivity|].
      exists dates. split; [exact Hd | reflexivity].
    + intros ds Hds _. rewrite Hd in Hds. injection Hds as <-. reflexivity.
Qed.

(** The theorem at the stale cache: the report returned is the empty one. *)
Lemma cached_load_of_stale_cache :
  exists r s',
    App.load_data Scenarios.env_ok Scenarios.with_cache = (r, s') /\
    new_events Scenarios.with_cache s' =
      [StInfo "Loading cached merged data..."; ReadParquet App.CACHE_FILE] /\
    r = Ok (App.with_calendar_columns [Scenarios.d 2024 1 1; Scenarios.d 2024 2 29; NaT] Scenarios.stale_cache,
            VDict []).
Proof.
  destruct (cached_load_pairs_unused_report Scenarios.env_ok Scenarios.with_cache Scenarios.stale_cache eq_refl)
    as (r & s' & Hrun & Hev & _ & Hok).
  exists r, s'. split; [exact Hrun|]. split; [exact Hev|].
  exact (Hok [Scenarios.d 2024 1 1; Scenarios.d 2024 2 29; NaT] eq_refl eq_refl).
Defined.

(* ===================================================================== *)
(** ** 20. The merge, as specified                                       *)
(* ===================================================================== *)

Module SpecTransformerFacts.
Import SpecTransformer.

(** What survives the removal of duplicates was a row, of a date not seen
    before. *)
Lemma drop_duplicates_elem {A : Type} (seen : gset Z) (rows : list (Z * A)) x :
  x ∈ drop_duplicates seen rows -> x ∈ rows /\ fst x ∉ seen.
Proof.
  revert seen. induction rows as [|y rows IH]; intros seen; cbn [drop_duplicates].
  - intros H. inversion H.
  - case_decide as Hy.
    + intros H. destruct (IH _ H) as [H1 H2]. split; [by apply list_elem_of_further|done].
    + intros H. apply elem_of_cons in H as [->|H].
      * split; [apply list_elem_of_here|done].
      * destruct (IH _ H) as [H1 H2]. split; [by apply list_elem_of_further|].
        by apply not_elem_of_union in H2 as [_ H2].
Qed.

(** No date is lost: a row of each date not seen before survives. *)
Lemma drop_duplicates_keeps_date {A : Type} (seen : gset Z) (rows : list (Z * A)) x :
  x ∈ rows -> fst x ∉ seen ->
  exists y, y ∈ drop_duplicates seen rows /\ fst y = fst x.
Proof.
  revert seen. induction rows as [|z rows IH]; intros seen Hx Hs.
  - inversion Hx.
  - cbn [drop_duplicates]. case_decide as Hz.
    + apply elem_of_cons in Hx as [->|Hx]; [done|]. by apply IH.
    + destruct (decide (fst z = fst x)) as [E|E].
      * exists z. split; [apply list_elem_of_here|done].
      * apply elem_of_cons in Hx as [->|Hx]; [done|].
        destruct (IH ({[fst z]} ∪ seen) Hx) as (y & Hy & Ey).
        { apply not_elem_of_union. split; [|done].
          by apply not_elem_of_singleton_2. }
        exists y. split; [by apply list_elem_of_further|done].
Qed.

(** One row per date survives. *)
Lemma drop_duplicates_NoDup {A : Type} (seen : gset Z) (rows : list (Z * A)) :
  NoDup (fst <$> drop_duplicates seen rows).
Proof.
  revert seen. induction rows as [|z rows IH]; intros seen; cbn [drop_duplicates].
  - constructor.
  - case_decide as Hz; [apply IH|].
    rewrite fmap_cons. constructor; [|apply IH].
    intros Hin. apply list_elem_of_fmap in Hin as (y & Ey & Hy).
    apply drop_duplicates_elem in Hy as [_ Hy].
    apply Hy, elem_of_union. left. apply elem_of_singleton. by rewrite <- Ey.
Qed.

(** A date without weather finds none. *)
Lemma find_weather_None (d : Z) ws :
  d ∉ (fst <$> ws) -> find_weather d ws = None.
Proof.
  induction ws as [|w ws IH]; [done|]. cbn [find_weather]. rewrite fmap_cons.
  intros H. apply not_elem_of_cons in H as [H1 H2].
  case_decide as E; [done|by apply IH].
Qed.

(** The dates of the rows kept are the dates of the input that parse. *)
Lemma valid_ridership_dates rows :
  fst <$> valid_ridership rows = ridership_dates rows.
Proof.
  unfold valid_ridership, ridership_dates.
  induction rows as [|r rows IH]; [done|]. cbn [omap list_omap].
  destruct (r_date r); [rewrite fmap_cons; cbn; by rewrite IH|exact IH].
Qed.

(** The same for the weather rows. *)
Lemma valid_weather_dates rows :
  fst <$> valid_weather rows = weather_dates rows.
Proof.
  unfold valid_weather, weather_dates.
  induction rows as [|r rows IH]; [done|]. cbn [omap list_omap].
  destruct (w_date r); [rewrite fmap_cons; cbn; by rewrite IH|exact IH].
Qed.

(** The calendar fields of a merged record are those of its date. *)
Lemma merged_calendar_fields (rs : list RidershipRecord) (ws : list WeatherRecord)
    (m : MergedRecord) :
  m ∈ fst (transform_and_merge rs ws) ->
  (year m, month m) = fst (PyDatetime.ord2ymd (date m)) /\
  month_name m = PyDatetime.month_name_of (month m) /\
  day_name m = PyDatetime.day_name_of ((date m + 6) mod 7) /\
  year_month m = PyDatetime.fmt4 (year m) +:+ "-" +:+ PyDatetime.fmt2 (month m).
Proof.
  cbn [transform_and_merge fst]. intros Hm.
  apply list_elem_of_fmap in Hm as (r & -> & _).
  cbn [merge_row year month month_name day_name year_month date].
  by destruct (PyDatetime.ord2ymd r.1) as [[y mo] dd].
Qed.

(** C2.  For all inputs of [transform_and_merge] (as specified): the date
    of every merged record occurs among the ridership input dates; a date
    that occurs in the weather input only is the date of no merged record;
    every ridership date is the date of a merged record, whose weather
    fields are null when the date is absent from the weather input; and no
    two merged records share a date. *)
Theorem merged_dates_are_ridership_dates (rs : list RidershipRecord)
    (ws : list WeatherRecord) :
  (forall m, m ∈ fst (transform_and_merge rs ws) -> date m ∈ ridership_dates rs) /\
  (forall d, d ∈ weather_dates ws -> d ∉ ridership_dates rs ->
             forall m, m ∈ fst (transform_and_merge rs ws) -> date m <> d) /\
  (forall d, d ∈ ridership_dates rs ->
     exists m, m ∈ fst (transform_and_merge rs ws) /\ date m = d /\
               (d ∉ weather_dates ws ->
                temperature_mean m = None /\ precipitation m = None)) /\
  NoDup (date <$> fst (transform_and_merge rs ws)).
Proof.
  assert (Hin : forall m, m ∈ fst (transform_and_merge rs ws) ->
                          date m ∈ ridership_dates rs).
  { intros m Hm. cbn [transform_and_merge fst] in Hm.
    apply list_elem_of_fmap in Hm as (r & -> & Hr).
    apply drop_duplicates_elem in Hr as [Hr _].
    rewrite <- valid_ridership_dates. apply list_elem_of_fmap. by exists r. }
  split; [exact Hin|]. split.
  { intros d _ Hd m Hm E. subst d. by apply Hd, Hin. }
  split.
  - intros d Hd. rewrite <- valid_ridership_dates in Hd.
    apply list_elem_of_fmap in Hd as (r & -> & Hr).
    destruct (drop_duplicates_keeps_date ∅ _ r Hr) as (y & Hy & Ey);
      [apply not_elem_of_empty|].
    exists (merge_row (drop_duplicates ∅ (valid_weather ws)) y).
    split; [cbn [transform_and_merge fst]; apply list_elem_of_fmap; by exists y|].
    split; [exact Ey|].
    intros Hw. cbn [merge_row temperature_mean precipitation].
    rewrite find_weather_None; [done|].
    intros Hin'. apply Hw. rewrite <- valid_weather_dates.
    apply list_elem_of_fmap in Hin' as (w & Ew & Hw').
    apply drop_duplicates_elem in Hw' as [Hw' _].
    apply list_elem_of_fmap. exists w. split; [congruence|done].
  - cbn [transform_and_merge fst]. rewrite <- list_fmap_compose.
    apply (drop_duplicates_NoDup ∅ (valid_ridership rs)).
Qed.

(** Scenario A of the specification, with a weather row for January 3
    added: the merged dates are January 1 and 2, January 3 is not among
    them, and January 2 comes with null weather. *)
Lemma merged_dates_of_scenario_A :
  (forall m, m ∈ fst (transform_and_merge scenario_ridership scenario_weather) ->
             date m ∈ [jan1; jan2]) /\
  (forall m, m ∈ fst (transform_and_merge scenario_ridership scenario_weather) ->
             date m <> jan3) /\
  (exists m, m ∈ fst (transform_and_merge scenario_ridership scenario_weather) /\
             date m = jan2 /\ temperature_mean m = None /\ precipitation m = None).
Proof.
  destruct (merged_dates_are_ridership_dates scenario_ridership scenario_weather)
    as (Hin & Hout & Hkeep & _).
  split; [exact Hin|].
  split; [apply (Hout jan3); refine (bool_decide_unpack _ _); vm_compute; exact I|].
  destruct (Hkeep jan2) as (m & Hm & Hd & Hnull);
    [refine (bool_decide_unpack _ _); vm_compute; exact I|].
  exists m. split; [exact Hm|]. split; [exact Hd|].
  apply Hnull. refine (bool_decide_unpack _ _). vm_compute. exact I.
Defined.

(** The merged table of scenario A, and the nulls its report counts. *)
Example scenario_A_merged :
  List.map (fun m => (date m, ridership m, day_name m, year_month m))
           (fst (transform_and_merge scenario_ridership scenario_weather))
    = [(jan1, Some 100, "Monday", "2024-01");
       (jan2, Some 200, "Tuesday", "2024-01")] /\
  snd (transform_and_merge scenario_ridership scenario_weather) !! "merged"
    ≫= (fun m => m !! "null_temperature_mean") = Some 1%nat /\
  snd (transform_and_merge scenario_ridership scenario_weather) !! "merged"
    ≫= (fun m => m !! "null_precipitation") = Some 1%nat.
Proof. repeat split; vm_compute; reflexivity. Qed.

End SpecTransformerFacts.

(* ===================================================================== *)
(** ** 21. Other ways for a run to fail                                *)
(* ===================================================================== *)

Import RunEvents.

(** Takes the state apart and unfolds the prologue around the [try]
    statement. *)
Ltac enter_try s :=
  rewrite run_unfold;
  destruct s as [tk jf pf tr pm qr];
  cbv beta iota delta [after_prologue csv_file summary_file reading] in *;
  cbn [ticks json_files parquet_files trace pipeline_metrics quality_report] in *;
  unary.

(** X1.  A run whose ridership extraction answers with rows and whose
    weather extraction answers with an empty table returns FAILED with the
    error "No weather data extracted": the transformer and the loader are
    never called, the quality report of the instance is the one it had, and
    the metrics file written last holds the returned metrics, status
    FAILED. *)
Theorem empty_weather_fails_run (env : Env) (s : State) (sd ed : option string)
    (db : bool) (r w : DataFrame) :
  fetch_ridership_data (extractor env)
    (resolved_start env s sd ed) (resolved_end env s ed) None = Ok r ->
  df_empty r = false ->
  fetch_weather_data (extractor env)
    (resolved_start env s sd ed) (resolved_end env s ed) = Ok w ->
  df_empty w = true ->
  exists res s',
    run sd ed db env s = (Ok res, s') /\
    r_status res = "FAILED" /\
    r_error res = Some "No weather data extracted" /\
    Forall (fun e => is_transform_or_load e = false) (new_events s s') /\
    json_files s' !! metrics_path (now_reading env (pred (ticks s')))
      = Some (r_metrics res) /\
    r_metrics res !! "status" = Some (VStr "FAILED") /\
    quality_report s' = quality_report s.
Proof.
  intros Hr Hre Hw Hwe. enter_try s.
  exec. rewrite Hr. exec. rewrite Hre. exec. rewrite Hw. exec. rewrite Hwe. exec.
  eexists _, _. split; [reflexivity|]. exec.
  split; [reflexivity|]. split; [reflexivity|].
  split; [erewrite new_events_app by (cbv [trace]; flat_trace; reflexivity);
          repeat constructor|].
  split; [apply lookup_insert_eq|].
  split; [map_lookup; reflexivity|reflexivity].
Qed.

(** The theorem where the weather source is empty. *)
Lemma empty_weather_fails_run_scenario :
  exists res s',
    run None None true Scenarios.env_no_weather Scenarios.fresh = (Ok res, s') /\
    r_status res = "FAILED" /\
    r_error res = Some "No weather data extracted" /\
    Forall (fun e => is_transform_or_load e = false) (new_events Scenarios.fresh s') /\
    json_files s' !! metrics_path (now_reading Scenarios.env_no_weather (pred (ticks s')))
      = Some (r_metrics res) /\
    r_metrics res !! "status" = Some (VStr "FAILED") /\
    quality_report s' = quality_report Scenarios.fresh.
Proof.
  exact (empty_weather_fails_run Scenarios.env_no_weather Scenarios.fresh
           None None true Scenarios.ridership_df Scenarios.empty_df
           eq_refl eq_refl eq_refl eq_refl).
Defined.

(** X2.  When both extractions answer with rows and [transform_and_merge]
    returns an empty table, the run returns FAILED with the error
    "Transformation resulted in empty dataset".  The transformer has been
    called, so the quality report of the instance is the new one; the
    loader has not, and the [transformation] entry of the metrics is the
    one from before the run: line 104 is not reached. *)
Theorem empty_merge_fails_run (env : Env) (s : State) (sd ed : option string)
    (db : bool) (rdf wdf mdf : DataFrame) (rep : value) :
  fetch_ridership_data (extractor env)
    (resolved_start env s sd ed) (resolved_end env s ed) None = Ok rdf ->
  df_empty rdf = false ->
  fetch_weather_data (extractor env)
    (resolved_start env s sd ed) (resolved_end env s ed) = Ok wdf ->
  df_empty wdf = false ->
  transform_and_merge (transformer env) (quality_report s) rdf wdf = (Ok mdf, rep) ->
  df_empty mdf = true ->
  exists res s',
    run sd ed db env s = (Ok res, s') /\
    r_status res = "FAILED" /\
    r_error res = Some "Transformation resulted in empty dataset" /\
    CallTransformAndMerge ∈ new_events s s' /\
    Forall (fun e => is_loader_call e = false) (new_events s s') /\
    r_metrics res !! "transformation" = pipeline_metrics s !! "transformation" /\
    quality_report s' = rep /\
    json_files s' !! metrics_path (now_reading env (pred (ticks s')))
      = Some (r_metrics res).
Proof.
  intros Hr Hre Hw Hwe Ht Hte. enter_try s.
  exec. rewrite Hr. exec. rewrite Hre. exec. rewrite Hw. exec. rewrite Hwe. exec.
  rewrite Ht. exec. rewrite Hte. exec.
  eexists _, _. split; [reflexivity|]. exec.
  split; [reflexivity|]. split; [reflexivity|].
  erewrite new_events_app by (cbv [trace]; flat_trace; reflexivity).
  split; [in_list|]. split; [repeat constructor|].
  split; [map_lookup; reflexivity|]. split; [reflexivity|].
  apply lookup_insert_eq.
Qed.

(** The theorem where the two sources have no date in common. *)
Lemma empty_merge_fails_run_scenario :
  exists res s',
    run None None true MoreScenarios.env_empty_merge Scenarios.fresh = (Ok res, s') /\
    r_status res = "FAILED" /\
    r_error res = Some "Transformation resulted in empty dataset" /\
    CallTransformAndMerge ∈ new_events Scenarios.fresh s' /\
    Forall (fun e => is_loader_call e = false) (new_events Scenarios.fresh s') /\
    r_metrics res !! "transformation"
      = pipeline_metrics Scenarios.fresh !! "transformation" /\
    quality_report s' = MoreScenarios.disjoint_report /\
    json_files s'
      !! metrics_path (now_reading MoreScenarios.env_empty_merge (pred (ticks s')))
      = Some (r_metrics res).
Proof.
  exact (empty_merge_fails_run MoreScenarios.env_empty_merge Scenarios.fresh
           None None true Scenarios.ridership_df Scenarios.weather_df
           Scenarios.empty_df MoreScenarios.disjoint_report
           eq_refl eq_refl eq_refl eq_refl eq_refl eq_refl).
Defined.

(** X4.  An exception of [load_to_postgres] fails the run, unlike a
    [False] it returns: with everything before it answering, the run
    returns FAILED with the message of that exception.  Both CSV files have
    been written and the upload of the first attempted; the [transformation]
    entry of the metrics is the new one, and the [loading] and
    [records_processed] entries are those from before the run. *)
Theorem database_exception_fails_run (env : Env) (s : State)
    (sd ed : option string) (rdf wdf mdf sdf : DataFrame) (rep : value)
    (csv spath e : string) :
  fetch_ridership_data (extractor env)
    (resolved_start env s sd ed) (resolved_end env s ed) None = Ok rdf ->
  df_empty rdf = false ->
  fetch_weather_data (extractor env)
    (resolved_start env s sd ed) (resolved_end env s ed) = Ok wdf ->
  df_empty wdf = false ->
  transform_and_merge (transformer env) (quality_report s) rdf wdf = (Ok mdf, rep) ->
  df_empty mdf = false ->
  save_to_csv (loader env) mdf (csv_file env (after_prologue env s sd ed true)) = Ok csv ->
  create_summary_stats (loader env) mdf = Ok sdf ->
  save_to_csv (loader env) sdf (summary_file env (after_prologue env s sd ed true))
    = Ok spath ->
  load_to_postgres (loader env) mdf "transit_weather_analytics" = Raise e ->
  exists res s',
    run sd ed true env s = (Ok res, s') /\
    r_status res = "FAILED" /\
    r_error res = Some e /\
    CallSaveToCsv (csv_file env (after_prologue env s sd ed true)) ∈ new_events s s' /\
    CallSaveToCsv (summary_file env (after_prologue env s sd ed true))
      ∈ new_events s s' /\
    CallUploadToS3 csv (s3_key csv) ∈ new_events s s' /\
    metric_field (r_metrics res) "transformation" "output_records"
      = Some (VInt (Z.of_nat (df_len mdf))) /\
    r_metrics res !! "loading" = pipeline_metrics s !! "loading" /\
    r_metrics res !! "records_processed" = pipeline_metrics s !! "records_processed".
Proof.
  intros Hr Hre Hw Hwe Ht Hte Hc Hs Hp Hdb. enter_try s.
  exec. rewrite Hr. exec. rewrite Hre. exec. rewrite Hw. exec. rewrite Hwe. exec.
  rewrite Ht. exec. rewrite Hte. exec. rewrite Hc. exec. rewrite Hs. exec.
  rewrite Hp. exec.
  repeat (split_call; exec).
  all: try congruence.
  all: match goal with H : Raise _ = Raise ?x |- _ => injection H as -> end.
  all: eexists _, _; split; [reflexivity|]; exec.
  all: split; [reflexivity|]; split; [reflexivity|].
  all: erewrite new_events_app by (cbv [trace]; flat_trace; reflexivity).
  all: split; [in_list|]; split; [in_list|]; split; [unfold s3_key; in_list|].
  all: split; [unfold metric_field; map_lookup; reflexivity|].
  all: split; map_lookup; reflexivity.
Qed.

(** The theorem where the database refuses the connection: three rows were
    transformed, none is counted as processed. *)
Lemma database_exception_fails_run_scenario :
  exists res s',
    run None None true MoreScenarios.env_db_raises Scenarios.fresh = (Ok res, s') /\
    r_status res = "FAILED" /\
    r_error res = Some "connection refused" /\
    metric_field (r_metrics res) "transformation" "output_records" = Some (VInt 3) /\
    r_metrics res !! "loading" = None /\
    r_metrics res !! "records_processed" = Some (VInt 0).
Proof.
  destruct (database_exception_fails_run MoreScenarios.env_db_raises Scenarios.fresh
              None None
              Scenarios.ridership_df Scenarios.weather_df Scenarios.merged_df
              Scenarios.merged_df Scenarios.report_after
              ("data/processed/" +:+
               csv_file MoreScenarios.env_db_raises
                 (after_prologue MoreScenarios.env_db_raises Scenarios.fresh
                    None None true))
              ("data/processed/" +:+
               summary_file MoreScenarios.env_db_raises
                 (after_prologue MoreScenarios.env_db_raises Scenarios.fresh
                    None None true))
              "connection refused"
              eq_refl eq_refl eq_refl eq_refl eq_refl eq_refl eq_refl eq_refl
              eq_refl eq_refl)
    as (res & s' & Hrun & Hst & Herr & _ & _ & _ & Hout & Hload & Hrec).
  exists res, s'.
  split; [exact Hrun|]. split; [exact Hst|]. split; [exact Herr|].
  split; [exact Hout|]. split; [exact Hload | exact Hrec].
Defined.

(** X5.  The two uploads share one [try]: when the upload of the data file
    raises, the upload of the summary file is not attempted.  The run
    logs one warning, with the message of the exception, and goes on to
    SUCCESS; the summary path is recorded in the metrics all the same. *)
Theorem failed_first_upload_skips_second (env : Env) (s : State)
    (sd ed : option string) (db : bool) (rdf wdf mdf sdf : DataFrame)
    (rep : value) (csv spath : string) (dbs : bool) (e : string) :
  fetch_ridership_data (extractor env)
    (resolved_start env s sd ed) (resolved_end env s ed) None = Ok rdf ->
  df_empty rdf = false ->
  fetch_weather_data (extractor env)
    (resolved_start env s sd ed) (resolved_end env s ed) = Ok wdf ->
  df_empty wdf = false ->
  transform_and_merge (transformer env) (quality_report s) rdf wdf = (Ok mdf, rep) ->
  df_empty mdf = false ->
  save_to_csv (loader env) mdf (csv_file env (after_prologue env s sd ed db)) = Ok csv ->
  create_summary_stats (loader env) mdf = Ok sdf ->
  save_to_csv (loader env) sdf (summary_file env (after_prologue env s sd ed db))
    = Ok spath ->
  (if db then load_to_postgres (loader env) mdf "transit_weather_analytics" = Ok dbs
   else dbs = false) ->
  upload_to_s3 (loader env) csv (s3_key csv) = Raise e ->
  exists res s',
    run sd ed db env s = (Ok res, s') /\
    r_status res = "SUCCESS" /\
    List.filter is_upload (new_events s s') = [CallUploadToS3 csv (s3_key csv)] /\
    List.filter (fun ev => match ev with Log WARNING _ => true | _ => false end)
                (new_events s s')
      = [Log WARNING ("S3 upload failed: " +:+ e)] /\
    metric_field (r_metrics res) "loading" "summary_path" = Some (VStr spath).
Proof.
  intros Hr Hre Hw Hwe Ht Hte Hc Hs Hp Hdb Hu. unfold s3_key in *. enter_try s.
  exec. rewrite Hr. exec. rewrite Hre. exec. rewrite Hw. exec. rewrite Hwe. exec.
  rewrite Ht. exec. rewrite Hte. exec. rewrite Hc. exec. rewrite Hs. exec.
  rewrite Hp. exec. rewrite Hu. exec.
  destruct db; [rewrite Hdb | subst dbs]; exec.
  all: eexists _, _; split; [reflexivity|]; exec.
  all: split; [reflexivity|].
  all: erewrite new_events_app by (cbv [trace]; flat_trace; reflexivity).
  all: split; [reflexivity|]; split; [reflexivity|].
  all: unfold metric_field; map_lookup; reflexivity.
Qed.

(** The theorem at scenario C: one upload attempted, one warning. *)
Lemma failed_first_upload_scenario :
  exists res s',
    run None None true Scenarios.env_ok Scenarios.fresh = (Ok res, s') /\
    r_status res = "SUCCESS" /\
    length (List.filter is_upload (new_events Scenarios.fresh s')) = 1%nat /\
    List.filter (fun ev => match ev with Log WARNING _ => true | _ => false end)
                (new_events Scenarios.fresh s')
      = [Log WARNING ("S3 upload failed: " +:+ "S3 bucket not configured")].
Proof.
  destruct (failed_first_upload_skips_second Scenarios.env_ok Scenarios.fresh
              None None true
              Scenarios.ridership_df Scenarios.weather_df Scenarios.merged_df
              Scenarios.merged_df Scenarios.report_after
              ("data/processed/" +:+
               csv_file Scenarios.env_ok
                 (after_prologue Scenarios.env_ok Scenarios.fresh None None true))
              ("data/processed/" +:+
               summary_file Scenarios.env_ok
                 (after_prologue Scenarios.env_ok Scenarios.fresh None None true))
              false "S3 bucket not configured"
              eq_refl eq_refl eq_refl eq_refl eq_refl eq_refl eq_refl eq_refl
              eq_refl eq_refl eq_refl)
    as (res & s' & Hrun & Hst & Hup & Hwarn & _).
  exists res, s'.
  split; [exact Hrun|]. split; [exact Hst|].
  split; [rewrite Hup; reflexivity | exact Hwarn].
Defined.




(** Without the database load the [try] statement never calls it. *)
Lemma attempt_without_database (env : Env) (s : State) (x : Qc) (sd ed : string) :
  exists res s' evs,
    try_except (run_phases x sd ed false) run_failed env s = (Ok res, s') /\
    trace s' = trace s ++ evs /\
    Forall (fun e => is_postgres_call e = false) evs /\
    (r_status res = "SUCCESS" ->
     metric_field (r_metrics res) "loading" "database_success" = Some (VBool false)).
Proof.
  destruct s as [tk jf pf tr pm qr]. exec; repeat (split_call; exec).
  all: eexists _, _, _; split; [reflexivity|]; exec.
  all: split; [flat_trace; reflexivity|].
  all: split; [repeat constructor|].
  all: intros Hst; try discriminate Hst.
  all: unfold metric_field; map_lookup; reflexivity.
Qed.

(** X6.  With [save_to_db] false, [run] returns whatever the collaborators
    do, [load_to_postgres] is never called, and the run either fails or
    records [database_success] as [False]. *)
Theorem no_db_never_calls_database (env : Env) (s : State) (sd ed : option string) :
  exists res s',
    run sd ed false env s = (Ok res, s') /\
    Forall (fun e => is_postgres_call e = false) (new_events s s') /\
    (r_status res = "FAILED" \/
     metric_field (r_metrics res) "loading" "database_success" = Some (VBool false)).
Proof.
  rewrite run_unfold.
  destruct (attempt_without_database env (after_prologue env s sd ed false) 0%Qc
              (resolved_start env s sd ed) (resolved_end env s ed))
    as (res & s' & evs & Hrun & Htr & Hev & Hdb).
  destruct (attempt_total env (after_prologue env s sd ed false) 0%Qc
              (resolved_start env s sd ed) (resolved_end env s ed) false)
    as (res0 & s0 & rest & Hrun0 & Hst & _).
  rewrite Hrun in Hrun0. injection Hrun0 as <- <-.
  exists res, s'. split; [exact Hrun|]. split.
  - unfold new_events. rewrite Htr. cbn [after_prologue trace].
    rewrite <- app_assoc, drop_app_length. apply Forall_app. split; [|exact Hev].
    repeat constructor.
  - destruct Hst as [[Hs _]|[Hf _]]; [right; exact (Hdb Hs)|left; exact Hf].
Qed.

(** X7.  A successful run does not touch the [errors] entry: on an
    instance whose earlier run failed, the metrics returned and saved by a
    later successful run still list the error of the earlier one, under
    the status SUCCESS. *)
Theorem success_keeps_old_errors (env : Env) (s : State) (sd ed : option string)
    (db : bool) (res : run_result) (s' : State) :
  run sd ed db env s = (Ok res, s') ->
  r_status res = "SUCCESS" ->
  r_metrics res !! "errors" = pipeline_metrics s !! "errors" /\
  json_files s' !! metrics_path (now_reading env (pred (ticks s')))
    = Some (r_metrics res).
Proof.
  intros Hrun Hst. rewrite run_unfold in Hrun.
  destruct (attempt_success_inv env (after_prologue env s sd ed db) _ _ _ _ _ _ Hrun Hst)
    as (rdf & wdf & mdf & sdf & rep & csv & spath & dbs &
        Hr & Hre & Hw & Hwe & Ht & Hte & Hc & Hs & Hp & Hdb).
  destruct (attempt_success env (after_prologue env s sd ed db) 0%Qc _ _ db
              rdf wdf mdf sdf rep csv spath dbs Hr Hre Hw Hwe Ht Hte Hc Hs Hp Hdb)
    as (res1 & s1 & evs & Hrun1 & _ & _ & Hrm & Hpm & _).
  destruct (attempt_total env (after_prologue env s sd ed db) 0%Qc
              (resolved_start env s sd ed) (resolved_end env s ed) db)
    as (res0 & s0 & rest & Hrun0 & _ & _ & _ & Hjs & _).
  rewrite Hrun in Hrun1, Hrun0.
  injection Hrun1 as <- <-. injection Hrun0 as <- <-.
  split.
  - rewrite Hrm, Hpm. unfold success_metrics. map_lookup.
    cbn [after_prologue pipeline_metrics]. map_lookup. reflexivity.
  - rewrite Hrm, Hjs. apply lookup_insert_eq.
Qed.

(** The theorem at a successful run on an instance that has failed before. *)
Lemma success_keeps_old_errors_scenario :
  r_metrics (MoreScenarios.result_of
               (run None None true Scenarios.env_ok MoreScenarios.after_failed_run))
    !! "errors"
    = pipeline_metrics MoreScenarios.after_failed_run !! "errors" /\
  json_files (snd (run None None true Scenarios.env_ok MoreScenarios.after_failed_run))
    !! metrics_path
         (now_reading Scenarios.env_ok
            (pred (ticks (snd (run None None true Scenarios.env_ok
                                 MoreScenarios.after_failed_run)))))
    = Some (r_metrics (MoreScenarios.result_of
                         (run None None true Scenarios.env_ok
                            MoreScenarios.after_failed_run))).
Proof.
  apply (success_keeps_old_errors Scenarios.env_ok MoreScenarios.after_failed_run
           None None true).
  - vm_compute. reflexivity.
  - vm_compute. reflexivity.
Defined.

(** A failed [try] statement assigns four entries at most. *)
Lemma attempt_failed_keys (env : Env) (s : State) (x : Qc) (sd ed : string)
    (db : bool) (res : run_result) (s' : State) (k : string) :
  try_except (run_phases x sd ed db) run_failed env s = (Ok res, s') ->
  r_status res = "FAILED" ->
  k <> "end_time" -> k <> "status" -> k <> "errors" -> k <> "transformation" ->
  r_metrics res !! k = pipeline_metrics s !! k.
Proof.
  destruct s as [tk jf pf tr pm qr]. exec; repeat (split_call; exec).
  all: intros Hrun Hst; injection Hrun as <- <-; cbn [r_status] in Hst;
    try discriminate Hst.
  all: intros H1 H2 H3 H4; cbn [r_metrics].
  all: rewrite ?lookup_insert_ne by congruence; reflexivity.
Qed.

(** X8.  A failed run assigns no entry of the metrics but [start_time],
    [status], [end_time], [errors] and, when it got that far,
    [transformation]: every other entry, [quality_score], [success_rate],
    [records_processed] and [loading] among them, is the one left by the
    run before. *)
Theorem failure_keeps_old_results (env : Env) (s : State) (sd ed : option string)
    (db : bool) (res : run_result) (s' : State) (k : string) :
  run sd ed db env s = (Ok res, s') ->
  r_status res = "FAILED" ->
  k ∉ failed_run_keys ->
  r_metrics res !! k = pipeline_metrics s !! k.
Proof.
  intros Hrun Hst Hk. rewrite run_unfold in Hrun.
  unfold failed_run_keys in Hk.
  repeat (apply not_elem_of_cons in Hk as [? Hk]).
  rewrite (attempt_failed_keys _ _ _ _ _ _ _ _ k Hrun Hst) by assumption.
  cbn [after_prologue pipeline_metrics].
  rewrite !lookup_insert_ne by congruence. reflexivity.
Qed.

(** The theorem at a failed run on an instance that has succeeded before: the
    quality score of the earlier run stays. *)
Lemma failure_keeps_old_results_scenario :
  r_metrics (MoreScenarios.result_of
               (run None None true Scenarios.env_no_ridership
                  MoreScenarios.after_successful_run))
    !! "quality_score"
    = pipeline_metrics MoreScenarios.after_successful_run !! "quality_score".
Proof.
  apply (failure_keeps_old_results Scenarios.env_no_ridership
           MoreScenarios.after_successful_run None None true
           (MoreScenarios.result_of
              (run None None true Scenarios.env_no_ridership
                 MoreScenarios.after_successful_run))
           (snd (run None None true Scenarios.env_no_ridership
                   MoreScenarios.after_successful_run))).
  - vm_compute. reflexivity.
  - vm_compute. reflexivity.
  - unfold failed_run_keys. rewrite !not_elem_of_cons.
    repeat split; try discriminate. apply not_elem_of_nil.
Defined.

(* ===================================================================== *)
(** ** 22. The printed summary                                         *)
(* ===================================================================== *)




(* ===================================================================== *)
(** ** 23. The dashboard loader without a cache                        *)
(* ===================================================================== *)

(** X10.  Without a cache file, [load_data] fetches ridership (at most
    600000 records) and weather for 2023-01-01 to 2024-12-31, merges them,
    and writes the merged table to the cache file before the calendar
    columns are added: the file holds the table as the transformer returned
    it.  What is returned is that table with the calendar columns, paired
    with the quality report the merge produced; the calls are made in this
    order and no other. *)
Theorem fresh_load_merges_and_caches (env : Env) (s : State)
    (rdf wdf mdf : DataFrame) (rep : value) (dates : list cell) :
  parquet_files s !! App.CACHE_FILE = None ->
  fetch_ridership_data (extractor env) "2023-01-01" "2024-12-31" (Some 600000)
    = Ok rdf ->
  fetch_weather_data (extractor env) "2023-01-01" "2024-12-31" = Ok wdf ->
  transform_and_merge (transformer env)
    (initial_quality_report (transformer env)) rdf wdf = (Ok mdf, rep) ->
  df_get "date" mdf = Some dates ->
  forallb is_datetimelike dates = true ->
  exists s',
    App.load_data env s = (Ok (App.with_calendar_columns dates mdf, rep), s') /\
    parquet_files s' = <[App.CACHE_FILE := mdf]> (parquet_files s) /\
    new_events s s' =
      [StInfo "Fetching new data...";
       CallFetchRidership "2023-01-01" "2024-12-31" (Some 600000);
       CallFetchWeather "2023-01-01" "2024-12-31";
       CallTransformAndMerge;
       WriteParquet App.CACHE_FILE].
Proof.
  intros Hc Hr Hw Ht Hd Hf. destruct s as [tk jf pf tr pm qr].
  cbn [parquet_files] in Hc. exec. rewrite Hc.
  rewrite bool_decide_false by (intros [? ?]; discriminate). exec.
  rewrite Hr. exec. rewrite Hw. exec. rewrite Ht. exec.
  rewrite Hd. exec. rewrite Hf. exec.
  do 4 calendar_step Hd Hf.
  eexists. split; [reflexivity|]. split; [reflexivity|].
  apply new_events_app. cbn [trace]. flat_trace. reflexivity.
Qed.

(** The theorem at the first load of a process. *)
Lemma fresh_load_scenario :
  exists s',
    App.load_data Scenarios.env_ok Scenarios.boot
      = (Ok (App.with_calendar_columns
               [Scenarios.d 2024 1 1; Scenarios.d 2024 1 2; Scenarios.d 2024 1 3]
               Scenarios.merged_df,
             Scenarios.report_after), s') /\
    parquet_files s'
      = <[App.CACHE_FILE := Scenarios.merged_df]> (parquet_files Scenarios.boot) /\
    new_events Scenarios.boot s' =
      [StInfo "Fetching new data...";
       CallFetchRidership "2023-01-01" "2024-12-31" (Some 600000);
       CallFetchWeather "2023-01-01" "2024-12-31";
       CallTransformAndMerge;
       WriteParquet App.CACHE_FILE].
Proof.
  exact (fresh_load_merges_and_caches Scenarios.env_ok Scenarios.boot
           Scenarios.ridership_df Scenarios.weather_df Scenarios.merged_df
           Scenarios.report_after
           [Scenarios.d 2024 1 1; Scenarios.d 2024 1 2; Scenarios.d 2024 1 3]
           eq_refl eq_refl eq_refl eq_refl eq_refl eq_refl).
Defined.

(** X11.  Two loads in a row.  The second, served from the cache file the
    first wrote, returns the same table as the first, whatever the sources
    have become, but not the same report: it pairs the table with the
    report of a transformer that has merged nothing. *)
Theorem second_load_returns_same_table (env env' : Env) (s : State)
    (rdf wdf mdf : DataFrame) (rep : value) (dates : list cell) :
  parquet_files s !! App.CACHE_FILE = None ->
  fetch_ridership_data (extractor env) "2023-01-01" "2024-12-31" (Some 600000)
    = Ok rdf ->
  fetch_weather_data (extractor env) "2023-01-01" "2024-12-31" = Ok wdf ->
  transform_and_merge (transformer env)
    (initial_quality_report (transformer env)) rdf wdf = (Ok mdf, rep) ->
  df_get "date" mdf = Some dates ->
  forallb is_datetimelike dates = true ->
  exists s1 s2,
    App.load_data env s = (Ok (App.with_calendar_columns dates mdf, rep), s1) /\
    App.load_data env' s1
      = (Ok (App.with_calendar_columns dates mdf,
             initial_quality_report (transformer env')), s2) /\
    new_events s1 s2 =
      [StInfo "Loading cached merged data..."; ReadParquet App.CACHE_FILE].
Proof.
  intros Hc Hr Hw Ht Hd Hf. destruct s as [tk jf pf tr pm qr].
  cbn [parquet_files] in Hc. exec. rewrite Hc.
  rewrite bool_decide_false by (intros [? ?]; discriminate). exec.
  rewrite Hr. exec. rewrite Hw. exec. rewrite Ht. exec.
  rewrite Hd. exec. rewrite Hf. exec.
  do 4 calendar_step Hd Hf.
  eexists _, _. split; [reflexivity|].
  exec. rewrite lookup_insert_eq.
  rewrite bool_decide_true by eauto. exec. rewrite ?lookup_insert_eq. exec.
  rewrite Hd. exec. rewrite Hf. exec.
  do 4 calendar_step Hd Hf.
  split; [reflexivity|].
  apply new_events_app. cbn [trace]. flat_trace. reflexivity.
Qed.

(** The theorem where the weather source has gone empty between the loads. *)
Lemma second_load_scenario :
  exists s1 s2,
    App.load_data Scenarios.env_ok Scenarios.boot
      = (Ok (App.with_calendar_columns
               [Scenarios.d 2024 1 1; Scenarios.d 2024 1 2; Scenarios.d 2024 1 3]
               Scenarios.merged_df,
             Scenarios.report_after), s1) /\
    App.load_data Scenarios.env_no_weather s1
      = (Ok (App.with_calendar_columns
               [Scenarios.d 2024 1 1; Scenarios.d 2024 1 2; Scenarios.d 2024 1 3]
               Scenarios.merged_df,
             initial_quality_report (transformer Scenarios.env_no_weather)), s2) /\
    new_events s1 s2 =
      [StInfo "Loading cached merged data..."; ReadParquet App.CACHE_FILE].
Proof.
  exact (second_load_returns_same_table Scenarios.env_ok Scenarios.env_no_weather
           Scenarios.boot
           Scenarios.ridership_df Scenarios.weather_df Scenarios.merged_df
           Scenarios.report_after
           [Scenarios.d 2024 1 1; Scenarios.d 2024 1 2; Scenarios.d 2024 1 3]
           eq_refl eq_refl eq_refl eq_refl eq_refl eq_refl).
Defined.

(** X12.  The cache file is written before the date column is looked at.
    When the merged table has no [date] column, [load_data] raises
    [KeyError] after it has written the cache file, and every later load
    reads that file and raises the same [KeyError] without fetching
    anything. *)
Theorem undated_merge_poisons_cache (env env' : Env) (s : State)
    (rdf wdf mdf : DataFrame) (rep : value) :
  parquet_files s !! App.CACHE_FILE = None ->
  fetch_ridership_data (extractor env) "2023-01-01" "2024-12-31" (Some 600000)
    = Ok rdf ->
  fetch_weather_data (extractor env) "2023-01-01" "2024-12-31" = Ok wdf ->
  transform_and_merge (transformer env)
    (initial_quality_report (transformer env)) rdf wdf = (Ok mdf, rep) ->
  df_get "date" mdf = None ->
  exists s1 s2,
    App.load_data env s = (Raise "'date'", s1) /\
    parquet_files s1 !! App.CACHE_FILE = Some mdf /\
    App.load_data env' s1 = (Raise "'date'", s2) /\
    new_events s1 s2 =
      [StInfo "Loading cached merged data..."; ReadParquet App.CACHE_FILE].
Proof.
  intros Hc Hr Hw Ht Hd. destruct s as [tk jf pf tr pm qr].
  cbn [parquet_files] in Hc. exec. rewrite Hc.
  rewrite bool_decide_false by (intros [? ?]; discriminate). exec.
  rewrite Hr. exec. rewrite Hw. exec. rewrite Ht. exec. rewrite Hd. exec.
  eexists _, _. split; [reflexivity|].
  cbn [parquet_files]. split; [apply lookup_insert_eq|].
  exec. rewrite lookup_insert_eq.
  rewrite bool_decide_true by eauto. exec. rewrite ?lookup_insert_eq. exec.
  rewrite Hd. exec.
  split; [reflexivity|].
  apply new_events_app. cbn [trace]. flat_trace. reflexivity.
Qed.

(** The theorem where the transformer has lost the date column. *)
Lemma undated_merge_scenario :
  exists s1 s2,
    App.load_data MoreScenarios.env_undated Scenarios.boot = (Raise "'date'", s1) /\
    parquet_files s1 !! App.CACHE_FILE = Some MoreScenarios.undated_df /\
    App.load_data Scenarios.env_ok s1 = (Raise "'date'", s2) /\
    new_events s1 s2 =
      [StInfo "Loading cached merged data..."; ReadParquet App.CACHE_FILE].
Proof.
  exact (undated_merge_poisons_cache MoreScenarios.env_undated Scenarios.env_ok
           Scenarios.boot
           Scenarios.ridership_df Scenarios.weather_df MoreScenarios.undated_df
           Scenarios.report_after
           eq_refl eq_refl eq_refl eq_refl eq_refl).
Defined.

(** X13.  When a fetch or the merge raises, [load_data] lets the exception
    through and writes no cache file. *)
Theorem failed_fresh_load_caches_nothing (env : Env) (s : State) (e : string) :
  parquet_files s !! App.CACHE_FILE = None ->
  (fetch_ridership_data (extractor env) "2023-01-01" "2024-12-31" (Some 600000)
     = Raise e \/
   exists rdf,
     fetch_ridership_data (extractor env) "2023-01-01" "2024-12-31" (Some 600000)
       = Ok rdf /\
     (fetch_weather_data (extractor env) "2023-01-01" "2024-12-31" = Raise e \/
      exists wdf rep,
        fetch_weather_data (extractor env) "2023-01-01" "2024-12-31" = Ok wdf /\
        transform_and_merge (transformer env)
          (initial_quality_report (transformer env)) rdf wdf = (Raise e, rep))) ->
  exists s',
    App.load_data env s = (Raise e, s') /\
    parquet_files s' = parquet_files s /\
    Forall (fun ev => match ev with WriteParquet _ => False | _ => True end)
           (new_events s s').
Proof.
  intros Hc H. destruct s as [tk jf pf tr pm qr].
  cbn [parquet_files] in Hc. exec. rewrite Hc.
  rewrite bool_decide_false by (intros [? ?]; discriminate). exec.
  destruct H as [Hr | (rdf & Hr & [Hw | (wdf & rep & Hw & Ht)])].
  - rewrite Hr. exec. eexists. split; [reflexivity|]. split; [reflexivity|].
    erewrite new_events_app by (cbn [trace]; flat_trace; reflexivity).
    repeat constructor.
  - rewrite Hr. exec. rewrite Hw. exec.
    eexists. split; [reflexivity|]. split; [reflexivity|].
    erewrite new_events_app by (cbn [trace]; flat_trace; reflexivity).
    repeat constructor.
  - rewrite Hr. exec. rewrite Hw. exec. rewrite Ht. exec.
    eexists. split; [reflexivity|]. split; [reflexivity|].
    erewrite new_events_app by (cbn [trace]; flat_trace; reflexivity).
    repeat constructor.
Qed.

(** The theorem where the ridership source answers HTTP 503. *)
Lemma failed_fresh_load_scenario :
  exists s',
    App.load_data MoreScenarios.env_fetch_raises Scenarios.boot
      = (Raise "HTTP 503", s') /\
    parquet_files s' = parquet_files Scenarios.boot /\
    Forall (fun ev => match ev with WriteParquet _ => False | _ => True end)
           (new_events Scenarios.boot s').
Proof.
  apply (failed_fresh_load_caches_nothing MoreScenarios.env_fetch_raises
           Scenarios.boot "HTTP 503").
  - reflexivity.
  - left. reflexivity.
Defined.

(* ===================================================================== *)
(** ** 24. Calendar dates                                              *)
(* ===================================================================== *)

Import Utils Checks.

Lemma forall_range_spec (fuel : nat) (P : Z -> bool) : forall lo len,
  forall_range fuel P lo len = true ->
  forall i, lo <= i < lo + len -> P i = true.
Proof.
  induction fuel as [|f IH]; intros lo len H i Hi; cbn [forall_range] in H.
  - apply orb_true_iff in H as [H|H]; [apply Z.leb_le in H; lia|].
    apply andb_true_iff in H as [H1 H2]. apply Z.eqb_eq in H1.
    replace i with lo by lia. exact H2.
  - destruct (len <=? 1) eqn:E.
    + apply Z.leb_le in E.
      apply orb_true_iff in H as [H|H]; [apply Z.leb_le in H; lia|].
      replace i with lo by lia. exact H.
    + apply Z.leb_gt in E. apply andb_true_iff in H as [H1 H2].
      assert (0 <= len / 2 <= len) by (split; [apply Z.div_pos|apply Z.div_le_upper_bound]; lia).
      destruct (Z_lt_ge_dec i (lo + len / 2)).
      * apply (IH _ _ H1). lia.
      * apply (IH _ _ H2). lia.
Qed.

Lemma is_leap_period (y k : Z) : is_leap (y + 400 * k) = is_leap y.
Proof.
  unfold is_leap.
  replace ((y + 400 * k) mod 4) with (y mod 4)
    by (replace (y + 400 * k) with (y + (100 * k) * 4) by ring;
        symmetry; apply Z_mod_plus_full).
  replace ((y + 400 * k) mod 100) with (y mod 100)
    by (replace (y + 400 * k) with (y + (4 * k) * 100) by ring;
        symmetry; apply Z_mod_plus_full).
  replace ((y + 400 * k) mod 400) with (y mod 400)
    by (replace (y + 400 * k) with (y + k * 400) by ring;
        symmetry; apply Z_mod_plus_full).
  reflexivity.
Qed.

Lemma leap_flag_cycle :
  forall_range 9
    (fun i => Bool.eqb (is_leap (1 + i))
                ((i mod 4 =? 3) && (negb ((i mod 100) / 4 =? 24) || (i / 100 =? 3))))
    0 400 = true.
Proof. vm_compute. reflexivity. Qed.

Lemma month_day_cycle (leap : bool) :
  forall_range 9
    (fun n => let md := month_day n leap in
              (1 <=? fst md) && (fst md <=? 12) && (1 <=? snd md) &&
              (snd md <=? (if (fst md =? 2) && leap then 29 else DAYS_IN_MONTH (fst md))))
    0 365 = true.
Proof. destruct leap; vm_compute; reflexivity. Qed.

Lemma ord2ymd_valid (n0 : Z) :
  1 <= snd (fst (ord2ymd n0)) <= 12 /\
  1 <= snd (ord2ymd n0)
    <= days_in_month (fst (fst (ord2ymd n0))) (snd (fst (ord2ymd n0))).
Proof.
  cbv beta zeta delta [ord2ymd].
  set (n := n0 - 1).
  set (q := n / DI400Y). set (r := n mod DI400Y).
  set (n100 := r / DI100Y). set (r1 := r mod DI100Y).
  set (n4 := r1 / DI4Y). set (r2 := r1 mod DI4Y).
  set (n1 := r2 / 365). set (nn := r2 mod 365).
  assert (Hr : 0 <= r < 146097) by (apply Z.mod_pos_bound; reflexivity).
  assert (Hr1 : 0 <= r1 < 36524) by (apply Z.mod_pos_bound; reflexivity).
  assert (Hr2 : 0 <= r2 < 1461) by (apply Z.mod_pos_bound; reflexivity).
  assert (Hnn : 0 <= nn < 365) by (apply Z.mod_pos_bound; reflexivity).
  assert (Hn100 : 0 <= n100 <= 4)
    by (unfold n100, DI100Y; split;
        [apply Z.div_pos; lia | apply Z.div_le_upper_bound; lia]).
  assert (Hn4 : 0 <= n4 <= 24)
    by (unfold n4, DI4Y; split;
        [apply Z.div_pos; lia | apply Z.lt_succ_r, Z.div_lt_upper_bound; lia]).
  assert (Hn1 : 0 <= n1 <= 4)
    by (unfold n1; split;
        [apply Z.div_pos; lia | apply Z.lt_succ_r, Z.div_lt_upper_bound; lia]).
  destruct ((n1 =? 4) || (n100 =? 4)) eqn:Elast.
  - cbn [fst snd]. unfold days_in_month. cbn. lia.
  - apply orb_false_iff in Elast as [E1 E100].
    apply Z.eqb_neq in E1, E100.
    set (leap := (n1 =? 3) && (negb (n4 =? 24) || (n100 =? 3))).
    set (year := q * 400 + 1 + n100 * 100 + n4 * 4 + n1).
    match goal with
    | |- context [if ?c then (?y, ?a, ?b) else (?y, ?a', ?b')] =>
        replace (if c then (y, a, b) else (y, a', b'))
          with (year, fst (month_day nn leap), snd (month_day nn leap))
          by (unfold month_day; cbv zeta; fold leap; destruct c; reflexivity)
    end.
    cbn [fst snd].
    assert (Hleap : is_leap year = leap).
    { set (i := n100 * 100 + n4 * 4 + n1).
      assert (Hi : 0 <= i < 400) by (unfold i; lia).
      pose proof (forall_range_spec _ _ _ _ leap_flag_cycle i ltac:(lia)) as Hc.
      cbv beta in Hc. apply eqb_prop in Hc.
      replace year with (1 + i + 400 * q) by (unfold year, i; ring).
      rewrite is_leap_period, Hc. unfold leap.
      replace (i mod 4) with n1
        by (unfold i; replace (n100 * 100 + n4 * 4 + n1)
                        with (n1 + (n100 * 25 + n4) * 4) by ring;
            rewrite Z_mod_plus_full, Z.mod_small; lia).
      replace (i / 100) with n100
        by (unfold i; apply Z.div_unique with (r := n4 * 4 + n1); lia).
      replace (i mod 100) with (n4 * 4 + n1)
        by (unfold i; apply Z.mod_unique with (q := n100); lia).
      replace ((n4 * 4 + n1) / 4) with n4
        by (apply Z.div_unique with (r := n1); lia).
      reflexivity. }
    pose proof (forall_range_spec _ _ _ _ (month_day_cycle leap) nn ltac:(lia)) as Hmd.
    cbv beta zeta in Hmd.
    apply andb_true_iff in Hmd as [Hmd H4]. apply andb_true_iff in Hmd as [Hmd H3].
    apply andb_true_iff in Hmd as [H1 H2].
    apply Z.leb_le in H1, H2, H3, H4.
    unfold days_in_month. rewrite Hleap. lia.
Qed.

(* ===================================================================== *)
(** ** 25. [validate_date_format]                                      *)
(* ===================================================================== *)

Lemma digit_code (n : Z) : code (digit n) = 48 + n mod 10.
Proof.
  unfold code, digit.
  assert (H : 0 <= n mod 10 < 10) by (apply Z.mod_pos_bound; lia).
  rewrite N_ascii_embedding by lia.
  rewrite N2Z.inj_add, Z2N.id by lia. reflexivity.
Qed.

Lemma between_digit (lo hi n : Z) :
  between lo hi (digit n) = (lo <=? n mod 10) && (n mod 10 <=? hi).
Proof.
  unfold between. rewrite digit_code.
  f_equal; [destruct (Z.leb_spec (48 + lo) (48 + n mod 10));
            destruct (Z.leb_spec lo (n mod 10)); lia || reflexivity
           |destruct (Z.leb_spec (48 + n mod 10) (48 + hi));
            destruct (Z.leb_spec (n mod 10) hi); lia || reflexivity].
Qed.

Lemma append_String (c : ascii) (s r : string) :
  String c s +:+ r = String c (s +:+ r).
Proof. reflexivity. Qed.

Lemma append_Empty (r : string) : EmptyString +:+ r = r.
Proof. reflexivity. Qed.

Lemma group_Y_fmt4 (y : Z) (rest : string) :
  0 <= y <= 9999 -> group_Y (fmt4 y +:+ rest) = Some (y, rest).
Proof.
  intros Hy. unfold fmt4. cbn [zero_pad].
  rewrite !append_String, append_Empty. cbn [group_Y].
  unfold is_digit. rewrite !between_digit.
  assert (H : forall k, (0 <=? k mod 10) && (k mod 10 <=? 9) = true).
  { intros k. pose proof (Z.mod_pos_bound k 10 ltac:(lia)).
    apply andb_true_iff. split; apply Z.leb_le; lia. }
  rewrite !H. cbn [andb]. unfold digit_value. rewrite !digit_code.
  do 2 f_equal. rewrite !Z.div_div by lia. cbn [Z.mul Pos.mul].
  pose proof (Z.div_mod y 10 ltac:(lia)).
  pose proof (Z.div_mod (y / 10) 10 ltac:(lia)).
  pose proof (Z.div_mod (y / 10 / 10) 10 ltac:(lia)).
  rewrite <- !Z.div_div by lia.
  assert (y / 10 / 10 / 10 < 10)
    by (repeat (apply Z.div_lt_upper_bound; [lia|]); lia).
  assert (0 <= y / 10 / 10 / 10) by (repeat apply Z.div_pos; lia).
  rewrite (Z.mod_small (y / 10 / 10 / 10)) by lia. lia.
Qed.

Lemma first_match_map {A B C : Type} (f : B -> C) (alts : list A)
    (k : A -> option B) :
  first_match alts (fun a => f <$> k a) = f <$> first_match alts k.
Proof.
  induction alts as [|a alts IH]; [reflexivity|]. cbn [first_match].
  destruct (k a); [reflexivity|exact IH].
Qed.

Lemma first_match_ext {A B : Type} (alts : list A) (k k' : A -> option B) :
  (forall a, k a = k' a) -> first_match alts k = first_match alts k'.
Proof.
  intros H. induction alts as [|a alts IH]; [reflexivity|]. cbn [first_match].
  rewrite H, IH. reflexivity.
Qed.

Lemma match_ymd_after_year (y : Z) (t : string) :
  0 <= y <= 9999 ->
  match_ymd (fmt4 y +:+ "-" +:+ t)
  = (fun r => (y, fst (fst r), snd (fst r), snd r)) <$> match_md t.
Proof.
  intros Hy. unfold match_ymd, match_md.
  rewrite (group_Y_fmt4 y _ Hy). rewrite append_String, append_Empty.
  cbn [literal Ascii.eqb Bool.eqb]. rewrite <- first_match_map.
  apply first_match_ext. intros [mv ms]. cbn [fst snd].
  destruct (literal "-" ms) as [s3|]; [|reflexivity].
  destruct (group_d s3) as [|[dv ds] ?]; reflexivity.
Qed.

Lemma padded_month_day_check :
  forall_range 7
    (fun m =>
       forall_range 7
         (fun d =>
            Bool.eqb (is_md m d (match_md (fmt2 m +:+ "-" +:+ fmt2 d)))
                     ((1 <=? m) && (m <=? 12) && (1 <=? d) && (d <=? 31))
            && (is_md m d (match_md (fmt2 m +:+ "-" +:+ fmt2 d))
                || match match_md (fmt2 m +:+ "-" +:+ fmt2 d) with
                   | Some (_, _, EmptyString) => false
                   | _ => true
                   end))
         0 100)
    0 100 = true.
Proof. vm_compute. reflexivity. Qed.

Lemma unpadded_month_day_check :
  forall_range 4
    (fun m =>
       forall_range 4
         (fun d =>
            is_md m d (match_md (String (digit m) ("-" +:+ String (digit d) EmptyString))))
         1 9)
    1 9 = true.
Proof. vm_compute. reflexivity. Qed.

Lemma is_md_true (m d : Z) (r : option (Z * Z * string)) :
  is_md m d r = true -> r = Some (m, d, EmptyString).
Proof.
  destruct r as [[[m' d'] [|c rest]]|]; cbn [is_md]; try discriminate.
  intros H. apply andb_true_iff in H as [H1 H2].
  apply Z.eqb_eq in H1, H2. congruence.
Qed.

(** [strptime] on a date written with four, two and two digits: the date
    with these fields when there is one, a [ValueError] otherwise. *)
Lemma strptime_padded (y m d : Z) :
  0 <= y <= 9999 -> 0 <= m < 100 -> 0 <= d < 100 ->
  if (1 <=? y) && (1 <=? m) && (m <=? 12) && (1 <=? d) && (d <=? days_in_month y m)
  then strptime_ymd (fmt4 y +:+ "-" +:+ fmt2 m +:+ "-" +:+ fmt2 d) = Ok (ymd2ord y m d)
  else exists e,
         strptime_ymd (fmt4 y +:+ "-" +:+ fmt2 m +:+ "-" +:+ fmt2 d) = Raise e.
Proof.
  intros Hy Hm Hd.
  pose proof (forall_range_spec _ _ _ _ padded_month_day_check m ltac:(lia)) as Hc.
  cbv beta in Hc.
  pose proof (forall_range_spec _ _ _ _ Hc d ltac:(lia)) as Hmd. clear Hc.
  cbv beta in Hmd. apply andb_true_iff in Hmd as [Heq Hrest].
  apply eqb_prop in Heq.
  unfold strptime_ymd.
  rewrite (match_ymd_after_year y _ Hy).
  destruct (is_md m d (match_md (fmt2 m +:+ "-" +:+ fmt2 d))) eqn:E.
  - apply is_md_true in E. rewrite E. cbn [fmap option_fmap option_map fst snd].
    symmetry in Heq. apply andb_true_iff in Heq as [Heq H4].
    apply andb_true_iff in Heq as [Heq H3]. apply andb_true_iff in Heq as [H1 H2].
    rewrite H1, H2, H3. cbn [andb].
    destruct (Z.leb_spec 1 y) as [Hy1|Hy1]; cbn [andb].
    + rewrite (proj2 (Z.ltb_ge y 1)) by lia.
      destruct (Z.leb_spec d (days_in_month y m)).
      * rewrite (proj2 (Z.ltb_ge (days_in_month y m) d)) by lia. reflexivity.
      * rewrite (proj2 (Z.ltb_lt (days_in_month y m) d)) by lia.
        eexists. reflexivity.
    + rewrite (proj2 (Z.ltb_lt y 1)) by lia. eexists. reflexivity.
  - cbn [orb] in Hrest.
    assert (Hout : (1 <=? y) && (1 <=? m) && (m <=? 12) && (1 <=? d)
                   && (d <=? days_in_month y m) = false).
    { symmetry in Heq.
      destruct (1 <=? m) eqn:E1, (m <=? 12) eqn:E2, (1 <=? d) eqn:E3;
        rewrite ?andb_false_r, ?andb_false_l; try reflexivity.
      cbn [andb] in Heq. apply Z.leb_gt in Heq.
      apply Z.leb_le in E1, E2.
      assert (days_in_month y m <= 31).
      { unfold days_in_month. destruct ((m =? 2) && is_leap y); [lia|].
        assert (m = 1 \/ m = 2 \/ m = 3 \/ m = 4 \/ m = 5 \/ m = 6 \/ m = 7 \/ m = 8
                \/ m = 9 \/ m = 10 \/ m = 11 \/ m = 12) as Hcases by lia.
        repeat (destruct Hcases as [->|Hcases]; [cbn; lia|]). subst m. cbn. lia. }
      rewrite andb_true_r.
      destruct (Z.leb_spec d (days_in_month y m)); [lia|].
      apply andb_false_r. }
    rewrite Hout.
    destruct (match_md (fmt2 m +:+ "-" +:+ fmt2 d)) as [[[m' d'] [|c rest]]|];
      cbn [fmap option_fmap option_map fst snd]; try discriminate Hrest;
      eexists; reflexivity.
Qed.

(** [strptime] reads back the date [strftime] wrote. *)
Lemma strftime_ymd_parses (t : datetime) :
  1000 <= year t <= 9999 ->
  strptime_ymd (strftime_ymd t) = Ok (ymd2ord (year t) (month t) (day t)).
Proof.
  intros Hy. unfold strftime_ymd.
  pose proof (ord2ymd_valid (toordinal t)) as [Hm Hd].
  fold (year t) in Hd. fold (month t) in Hm, Hd. fold (day t) in Hd.
  assert (days_in_month (year t) (month t) <= 31).
  { unfold days_in_month. destruct ((month t =? 2) && is_leap (year t)); [lia|].
    assert (month t = 1 \/ month t = 2 \/ month t = 3 \/ month t = 4 \/ month t = 5
            \/ month t = 6 \/ month t = 7 \/ month t = 8 \/ month t = 9
            \/ month t = 10 \/ month t = 11 \/ month t = 12) as Hcases by lia.
    repeat (destruct Hcases as [->|Hcases]; [cbn; lia|]). rewrite Hcases. cbn. lia. }
  pose proof (strptime_padded (year t) (month t) (day t)
                ltac:(lia) ltac:(lia) ltac:(lia)) as Hp.
  replace ((1 <=? year t) && (1 <=? month t) && (month t <=? 12) && (1 <=? day t)
           && (day t <=? days_in_month (year t) (month t))) with true in Hp.
  - exact Hp.
  - symmetry. repeat (apply andb_true_iff; split); apply Z.leb_le; lia.
Qed.

(** X15.  On a string of four digits, a dash, two digits, a dash and two
    digits, [validate_date_format] answers whether the three numbers make
    a date: year at least 1, month from 1 to 12, day from 1 to the length
    of that month in that year. *)
Theorem validate_padded_date (y m d : Z) :
  0 <= y <= 9999 -> 0 <= m < 100 -> 0 <= d < 100 ->
  validate_date_format (fmt4 y +:+ "-" +:+ fmt2 m +:+ "-" +:+ fmt2 d)
  = (1 <=? y) && (1 <=? m) && (m <=? 12) && (1 <=? d) && (d <=? days_in_month y m).
Proof.
  intros Hy Hm Hd. pose proof (strptime_padded y m d Hy Hm Hd) as Hp.
  unfold validate_date_format.
  destruct ((1 <=? y) && (1 <=? m) && (m <=? 12) && (1 <=? d)
            && (d <=? days_in_month y m)).
  - rewrite Hp. reflexivity.
  - destruct Hp as [e ->]. reflexivity.
Qed.

(** The theorem at 2023-02-29, which is no date. *)
Lemma validate_padded_date_examples :
  validate_date_format (fmt4 2023 +:+ "-" +:+ fmt2 2 +:+ "-" +:+ fmt2 29)
  = (1 <=? 2023) && (1 <=? 2) && (2 <=? 12) && (1 <=? 29)
    && (29 <=? days_in_month 2023 2).
Proof. apply (validate_padded_date 2023 2 29); lia. Defined.

(** X14.  [validate_date_format] accepts every date the pipeline writes
    with [strftime("%Y-%m-%d")], for years from 1000 on (below, the width
    of [%Y] depends on the platform): the date [strptime] reads back has
    the year, the month and the day of the date written. *)
Theorem formatted_dates_validate (t : datetime) :
  1000 <= year t <= 9999 ->
  validate_date_format (strftime_ymd t) = true /\
  strptime_ymd (strftime_ymd t) = Ok (ymd2ord (year t) (month t) (day t)).
Proof.
  intros Hy. pose proof (strftime_ymd_parses t Hy) as Hp.
  split; [|exact Hp]. unfold validate_date_format. rewrite Hp. reflexivity.
Qed.

(** The theorem at 2026-11-04. *)
Lemma formatted_noon_validates :
  validate_date_format (strftime_ymd Scenarios.noon) = true /\
  strptime_ymd (strftime_ymd Scenarios.noon)
  = Ok (ymd2ord (year Scenarios.noon) (month Scenarios.noon) (day Scenarios.noon)).
Proof.
  apply (formatted_dates_validate Scenarios.noon).
  vm_compute. split; discriminate.
Defined.

(** X16.  [validate_date_format] does not insist on the zero padding the
    help text of the command line suggests (YYYY-MM-DD): a month and a day
    of one digit each are accepted. *)
Theorem validate_accepts_unpadded (y m d : Z) :
  1 <= y <= 9999 -> 1 <= m <= 9 -> 1 <= d <= 9 ->
  validate_date_format
    (fmt4 y +:+ "-" +:+ String (digit m) ("-" +:+ String (digit d) EmptyString))
  = true.
Proof.
  intros Hy Hm Hd.
  pose proof (forall_range_spec _ _ _ _ unpadded_month_day_check m ltac:(lia)) as Hc.
  cbv beta in Hc.
  pose proof (forall_range_spec _ _ _ _ Hc d ltac:(lia)) as Hmd. clear Hc.
  cbv beta in Hmd. apply is_md_true in Hmd.
  unfold validate_date_format, strptime_ymd.
  rewrite (match_ymd_after_year y _ ltac:(lia)), Hmd.
  cbn [fmap option_fmap option_map fst snd].
  destruct (Z.ltb_spec y 1); [lia|].
  assert (days_in_month y m >= 28).
  { unfold days_in_month. destruct ((m =? 2) && is_leap y); [lia|].
    assert (m = 1 \/ m = 2 \/ m = 3 \/ m = 4 \/ m = 5 \/ m = 6 \/ m = 7 \/ m = 8
            \/ m = 9) as Hcases by lia.
    repeat (destruct Hcases as [->|Hcases]; [cbn; lia|]). subst m. cbn. lia. }
  destruct (Z.ltb_spec (days_in_month y m) d); [lia|reflexivity].
Qed.

(** The theorem at 2024-1-5. *)
Lemma validate_accepts_unpadded_example :
  validate_date_format
    (fmt4 2024 +:+ "-" +:+ String (digit 1) ("-" +:+ String (digit 5) EmptyString))
  = true.
Proof. apply (validate_accepts_unpadded 2024 1 5); lia. Defined.

(* ===================================================================== *)
(** ** 26. [get_date_range]                                            *)
(* ===================================================================== *)

(** X17.  When [get_date_range] returns, it has read the clock once; the
    end date is the day of that reading and the start date is the day
    [days_back] days before it, which lies between 0001-01-01 and
    9999-12-31 (else the subtraction raises).  With both years from 1000 to
    9999, both strings pass [validate_date_format]. *)
Theorem get_date_range_span (days_back : Z) (env : Env) (s : State)
    (a b : string) (s' : State) :
  get_date_range days_back env s = (Ok (a, b), s') ->
  ticks s' = S (ticks s) /\
  b = format_ordinal (toordinal (reading env s 0)) /\
  a = format_ordinal (toordinal (reading env s 0) - days_back) /\
  1 <= toordinal (reading env s 0) - days_back <= MAXORDINAL /\
  (1000 <= year (reading env s 0) <= 9999 ->
   1000 <= year (reading env s 0 - timedelta_days days_back) <= 9999 ->
   validate_date_format a = true /\ validate_date_format b = true).
Proof.
  destruct s as [tk jf pf tr pm qr].
  unfold get_date_range, reading. cbn [ticks]. rewrite Nat.add_0_r.
  cbv beta iota zeta delta [bind datetime_now ret raise ticks].
  destruct (MAX_DELTA_DAYS <? Z.abs days_back); [discriminate|].
  destruct ((toordinal (now_reading env tk - timedelta_days days_back) <? 1)
            || (MAXORDINAL <? toordinal (now_reading env tk - timedelta_days days_back)))
    eqn:E; [discriminate|].
  intros H. injection H as <- <- <-.
  apply orb_false_iff in E as [E1 E2]. apply Z.ltb_ge in E1, E2.
  rewrite toordinal_minus_days in E1, E2.
  split; [reflexivity|]. split; [apply strftime_ymd_ordinal|].
  split; [rewrite strftime_ymd_ordinal, toordinal_minus_days; reflexivity|].
  split; [lia|].
  intros Hb Ha. unfold validate_date_format.
  rewrite (strftime_ymd_parses _ Ha), (strftime_ymd_parses _ Hb).
  split; reflexivity.
Qed.

(** The theorem at thirty days back from 2026-11-04. *)
Lemma get_date_range_of_thirty_days :
  ticks (snd (get_date_range 30 Scenarios.env_ok Scenarios.fresh)) = 1%nat /\
  "2026-11-04" = format_ordinal (toordinal (reading Scenarios.env_ok Scenarios.fresh 0)) /\
  "2026-10-05"
    = format_ordinal (toordinal (reading Scenarios.env_ok Scenarios.fresh 0) - 30) /\
  1 <= toordinal (reading Scenarios.env_ok Scenarios.fresh 0) - 30 <= MAXORDINAL /\
  (1000 <= year (reading Scenarios.env_ok Scenarios.fresh 0) <= 9999 ->
   1000 <= year (reading Scenarios.env_ok Scenarios.fresh 0 - timedelta_days 30) <= 9999 ->
   validate_date_format "2026-10-05" = true /\
   validate_date_format "2026-11-04" = true).
Proof.
  apply (get_date_range_span 30 Scenarios.env_ok Scenarios.fresh
           "2026-10-05" "2026-11-04").
  vm_compute. reflexivity.
Defined.
